(** * tdx-gcp-rtmr: TDX quote inspector and boot-measurement replay

    A shallow embedding of [main.go] (the quote inspector) and of the
    boot-measurement replay script, with the properties of its
    specification stated over that embedding.

    Bytes are [Byte.byte]; a Go byte slice is a slice header (pointer,
    length, capacity) over a flat byte-addressed memory, because the raw
    path of the inspector turns a slice element's address into a
    [*TDReport] with [unsafe.Pointer] and then reads struct fields through
    it.  Output, memory reads through a [*TDReport] and calls into the
    imported packages are recorded in a trace. *)

From Stdlib Require Import ZArith NArith Lia Bool String Ascii DecimalString List.
From Stdlib.Strings Require Import Byte.
Import ListNotations.

Local Open Scope list_scope.

(** ** Bytes, text and formatting *)

Definition bytes := list byte.

Definition nl : string := String "010"%char EmptyString.

Definition zeros (n : nat) : bytes := repeat x00 n.

(** [%x] on one nibble. *)
Definition hex_digit (n : N) : ascii :=
  match n with
  | 0%N => "0" | 1%N => "1" | 2%N => "2" | 3%N => "3"
  | 4%N => "4" | 5%N => "5" | 6%N => "6" | 7%N => "7"
  | 8%N => "8" | 9%N => "9" | 10%N => "a" | 11%N => "b"
  | 12%N => "c" | 13%N => "d" | 14%N => "e" | _ => "f"
  end%char.

(** [%x] on a byte slice, also [hex.EncodeToString] and Python's
    [bytes.hex()]: two lowercase digits per byte, high nibble first. *)
Fixpoint hex (l : bytes) : string :=
  match l with
  | [] => EmptyString
  | b :: t =>
      String (hex_digit (Byte.to_N b / 16))
        (String (hex_digit (Byte.to_N b mod 16)) (hex t))
  end.

(** [%d] on a non-negative integer. *)
Definition dec (n : nat) : string := NilEmpty.string_of_uint (Nat.to_uint n).
Definition decN (n : N) : string := NilEmpty.string_of_uint (N.to_uint n).

(** [0x%08x] on a uint32: eight nibbles, most significant first. *)
Definition hex08 (n : N) : string :=
  fold_right (fun k acc => String (hex_digit ((n / 16 ^ k) mod 16)) acc)
    EmptyString [7; 6; 5; 4; 3; 2; 1; 0]%N.

(** [%t]. *)
Definition fmt_bool (b : bool) : string := if b then "true" else "false".

(** [new(big.Int).SetBytes]: big-endian unsigned. *)
Definition SetBytes (l : bytes) : Z :=
  fold_left (fun acc b => (acc * 256 + Z.of_N (Byte.to_N b))%Z) l 0%Z.

(** ** Memory and slices *)

Definition Mem := list byte.

Record Slice := mkSlice { ptr : nat; len : nat; cap : nat }.

(** The slice lies inside the mapped memory. *)
Definition wf_slice (m : Mem) (s : Slice) : Prop :=
  len s <= cap s /\ ptr s + cap s <= length m.

(** The bytes a slice denotes, [B] in the specification. *)
Definition slice_bytes (m : Mem) (s : Slice) : bytes :=
  firstn (len s) (skipn (ptr s) m).

(** [B[lo:hi]] on a byte sequence, [None] when the range is not inside it. *)
Definition byte_range (B : bytes) (lo hi : nat) : option bytes :=
  if (lo <=? hi) && (hi <=? length B) then Some (firstn (hi - lo) (skipn lo B))
  else None.

(** A load of [n] bytes at address [a]; [None] outside the mapped memory. *)
Definition load (m : Mem) (a n : nat) : option bytes :=
  if a + n <=? length m then Some (firstn n (skipn a m)) else None.

Definition store (m : Mem) (a : nat) (bs : bytes) : option Mem :=
  if a + length bs <=? length m
  then Some (firstn a m ++ bs ++ skipn (a + length bs) m)
  else None.

(** ** The TDReport struct *)

Inductive Field :=
| ReportType | Reserved1 | CpuSvn | TeeTcbInfoHash | TeeInfoHash | ReportData
| Reserved2 | MacStruct | TeeTcbSvn | MrSeam | MrSignerSeam | SeamAttributes
| TdAttributes | Xfam | MrTd | MrConfigId | MrOwner | MrOwnerConfig
| Rtmr0 | Rtmr1 | Rtmr2 | Rtmr3 | ServTdHash.

Definition Field_eqb (f g : Field) : bool :=
  match f, g with
  | ReportType, ReportType | Reserved1, Reserved1 | CpuSvn, CpuSvn
  | TeeTcbInfoHash, TeeTcbInfoHash | TeeInfoHash, TeeInfoHash
  | ReportData, ReportData | Reserved2, Reserved2 | MacStruct, MacStruct
  | TeeTcbSvn, TeeTcbSvn | MrSeam, MrSeam | MrSignerSeam, MrSignerSeam
  | SeamAttributes, SeamAttributes | TdAttributes, TdAttributes | Xfam, Xfam
  | MrTd, MrTd | MrConfigId, MrConfigId | MrOwner, MrOwner
  | MrOwnerConfig, MrOwnerConfig | Rtmr0, Rtmr0 | Rtmr1, Rtmr1
  | Rtmr2, Rtmr2 | Rtmr3, Rtmr3 | ServTdHash, ServTdHash => true
  | _, _ => false
  end.

(** The struct declaration: fields in order, each a byte array of the
    given length. *)
Definition TDReport : list (Field * nat) :=
  [ (ReportType, 4); (Reserved1, 12); (CpuSvn, 16); (TeeTcbInfoHash, 48);
    (TeeInfoHash, 48); (ReportData, 64); (Reserved2, 32); (MacStruct, 256);
    (TeeTcbSvn, 16); (MrSeam, 48); (MrSignerSeam, 48); (SeamAttributes, 8);
    (TdAttributes, 8); (Xfam, 8); (MrTd, 48); (MrConfigId, 48); (MrOwner, 48);
    (MrOwnerConfig, 48); (Rtmr0, 48); (Rtmr1, 48); (Rtmr2, 48); (Rtmr3, 48);
    (ServTdHash, 48) ].

(** Go lays a struct of byte arrays out in declaration order with
    alignment 1, so there is no padding. *)
Fixpoint size_in (fs : list (Field * nat)) (f : Field) : nat :=
  match fs with
  | [] => 0
  | (g, n) :: t => if Field_eqb g f then n else size_in t f
  end.

Fixpoint offset_in (fs : list (Field * nat)) (f : Field) : nat :=
  match fs with
  | [] => 0
  | (g, n) :: t => if Field_eqb g f then 0 else n + offset_in t f
  end.

Definition field_size (f : Field) : nat := size_in TDReport f.
Definition field_offset (f : Field) : nat := offset_in TDReport f.
Definition sizeof_TDReport : nat := list_sum (map snd TDReport).

(** ** Messages of the tdx protobuf package

    Only the fields the inspector reads are kept; a getter on an absent
    sub-message returns [None] (Go's nil). *)

Record Header := mkHeader {
  GetVersion : N;
  GetAttestationKeyType : N;
  GetTeeType : N;
  GetQeSvn : bytes;
  GetPceSvn : bytes
}.

Record TDQuoteBody := mkTDQuoteBody {
  GetMrTd : bytes;
  GetMrConfigId : bytes;
  GetMrOwner : bytes;
  GetMrOwnerConfig : bytes;
  GetRtmrs : list bytes
}.

Record SignedData := mkSignedData {
  GetSignature : bytes;
  GetEcdsaAttestationKey : bytes
}.

Record QuoteV4 := mkQuoteV4 {
  GetHeader : option Header;
  GetTdQuoteBody : option TDQuoteBody;
  GetSignedData : option SignedData
}.

(** What [abi.QuoteToProto] hands back behind its [any]. *)
Inductive AnyQuote :=
| IsQuoteV4 (q : QuoteV4)
| OtherQuote.

(** ** Traces and the run monad *)

Inductive libcall :=
| Call_proto_Unmarshal (b : bytes)
| Call_abi_QuoteToProto (b : bytes)
| Call_verify_RawTdxQuote (b : bytes)
| Call_IsOnCurve (x y : Z)
| Call_abi_HeaderToAbiBytes (h : Header)
| Call_abi_TdQuoteBodyToAbiBytes (b : TDQuoteBody)
| Call_sha256_Sum256 (payload : bytes)
| Call_ecdsa_Verify (x y : Z) (hash : bytes) (r s : Z).

Inductive event :=
| Stdout (s : string)
| Stderr (s : string)
| LogFatal (s : string)
| MemRead (a n : nat)
| Lib (c : libcall).

(** A run ends normally, leaves the process ([os.Exit], [log.Fatal]) or
    dies in the runtime (index out of range, a load outside the mapped
    memory). *)
Inductive outcome (A : Type) :=
| Done (a : A)
| Exit (code : nat)
| Panic.
Arguments Done {A} a.
Arguments Exit {A} code.
Arguments Panic {A}.

Definition M (A : Type) : Type := (list event * outcome A)%type.

Definition ret {A} (a : A) : M A := ([], Done a).

Definition bind {A B} (c : M A) (k : A -> M B) : M B :=
  match c with
  | (t, Done a) => let (t', r) := k a in (t ++ t', r)
  | (t, Exit code) => (t, Exit code)
  | (t, Panic) => (t, Panic)
  end.

Notation "x <- c ;; k" := (bind c (fun x => k))
  (at level 61, c at next level, right associativity).
Notation "c ;; k" := (bind c (fun _ => k))
  (at level 61, right associativity).

Definition emit (e : event) : M unit := ([e], Done tt).
Definition os_Exit {A} (code : nat) : M A := ([], Exit code).
Definition panic {A} : M A := ([], Panic).

Definition trace {A} (c : M A) : list event := fst c.
Definition result {A} (c : M A) : outcome A := snd c.

Definition print (s : string) : M unit := emit (Stdout s).
Definition println (s : string) : M unit := emit (Stdout (s ++ nl)).
(** [log.Fatal]/[log.Fatalf]: the message goes to the logger, then exit 1. *)
Definition log_Fatal {A} (s : string) : M A := emit (LogFatal s) ;; os_Exit 1.

Definition of_option {A} (o : option A) : M A :=
  match o with Some a => ret a | None => panic end.

(** The text a run wrote to standard output. *)
Fixpoint stdout (t : list event) : string :=
  match t with
  | [] => EmptyString
  | Stdout s :: t' => (s ++ stdout t')%string
  | _ :: t' => stdout t'
  end.

(** The memory ranges a run read through a [*TDReport]. *)
Fixpoint reads (t : list event) : list (nat * nat) :=
  match t with
  | [] => []
  | MemRead a n :: t' => (a, n) :: reads t'
  | _ :: t' => reads t'
  end.

(** ** Slice expressions *)

(** [s[lo:hi]]: panics unless [lo <= hi <= cap(s)]. *)
Definition go_reslice (s : Slice) (lo hi : nat) : M Slice :=
  if (lo <=? hi) && (hi <=? cap s)
  then ret (mkSlice (ptr s + lo) (hi - lo) (cap s - lo))
  else panic.

(** [&s[i]]: panics unless [i < len(s)]. *)
Definition go_elem_addr (s : Slice) (i : nat) : M nat :=
  if i <? len s then ret (ptr s + i) else panic.

(** [p.f] for [p : *TDReport]: a load of the field's bytes at the field's
    offset from [p]. *)
Definition field_load (m : Mem) (p : nat) (f : Field) : M bytes :=
  emit (MemRead (p + field_offset f) (field_size f)) ;;
  of_option (load m (p + field_offset f) (field_size f)).

(** [copy(p.f[:], src)]: writes [min(len(p.f), len(src))] bytes. *)
Definition field_copy (m : Mem) (p : nat) (f : Field) (src : bytes) : M Mem :=
  of_option (store m (p + field_offset f) (firstn (field_size f) src)).

(** ** extractTDReportFromRawQuote *)

Inductive error :=
| QuoteTooShort (n : nat)
| InvalidTDReportSize (n : nat).

(** The text of the error, as [fmt.Errorf] builds it. *)
Definition Error (e : error) : string :=
  match e with
  | QuoteTooShort n => "quote too short: " ++ dec n ++ " bytes"
  | InvalidTDReportSize n =>
      "invalid TD Report size: " ++ dec n ++ " bytes, expected 584"
  end%string.

Definition extractTDReportFromRawQuote (quoteData : Slice)
  : M (nat + error) :=
  if len quoteData <? 632 then ret (inr (QuoteTooShort (len quoteData)))
  else
    tdReportBytes <- go_reslice quoteData 48 632 ;;
    if negb (len tdReportBytes =? 584)
    then ret (inr (InvalidTDReportSize (len tdReportBytes)))
    else
      tdReport <- go_elem_addr tdReportBytes 0 ;;
      ret (inl tdReport).

(** ** printRTMRValues *)

Fixpoint allZeros (rtmr : bytes) : bool :=
  match rtmr with
  | [] => true
  | b :: t => if Byte.eqb b x00 then allZeros t else false
  end.

Definition uninitialized_line (i : nat) : string :=
  ("RTMR[" ++ dec i ++ "]: <all zeros - uninitialized>" ++ nl)%string.

Definition hex_line (i : nat) (rtmr : bytes) : string :=
  ("RTMR[" ++ dec i ++ "]: " ++ hex rtmr ++ nl)%string.

(** One iteration of the loop over the four registers. *)
Definition rtmr_line (i : nat) (rtmr : bytes) : string :=
  if allZeros rtmr then uninitialized_line i else hex_line i rtmr.

Fixpoint range {A} (i : nat) (l : list A) (body : nat -> A -> M unit)
  : M unit :=
  match l with
  | [] => ret tt
  | x :: t => body i x ;; range (S i) t body
  end.

Definition printRTMRValues (m : Mem) (tdReport : nat) : M unit :=
  println "Runtime TD Report RTMR Values:" ;;
  println "==============================" ;;
  rtmr0 <- field_load m tdReport Rtmr0 ;;
  rtmr1 <- field_load m tdReport Rtmr1 ;;
  rtmr2 <- field_load m tdReport Rtmr2 ;;
  rtmr3 <- field_load m tdReport Rtmr3 ;;
  range 0 [rtmr0; rtmr1; rtmr2; rtmr3]
    (fun i rtmr => print (rtmr_line i rtmr)) ;;
  mrTd <- field_load m tdReport MrTd ;;
  print (nl ++ "MrTd (Trust Domain Measurement): " ++ hex mrTd ++ nl) ;;
  mrConfigId <- field_load m tdReport MrConfigId ;;
  print ("MrConfigId: " ++ hex mrConfigId ++ nl) ;;
  mrOwner <- field_load m tdReport MrOwner ;;
  print ("MrOwner: " ++ hex mrOwner ++ nl) ;;
  mrOwnerConfig <- field_load m tdReport MrOwnerConfig ;;
  print ("MrOwnerConfig: " ++ hex mrOwnerConfig ++ nl) ;;
  println (nl ++ "RTMR Meanings:") ;;
  println "RTMR[0]: Static/dynamic configuration data" ;;
  println "RTMR[1]: OS kernel, boot parameters, initrd" ;;
  println "RTMR[2]: Additional boot components, ACPI tables" ;;
  println "RTMR[3]: Application-specific measurements" ;;
  println (nl ++ "Note: These are the RUNTIME RTMR values from the actual TD Report").

(** ** The P-256 curve

    [elliptic.P256().IsOnCurve(x, y)]: both coordinates are field
    elements and the affine point satisfies [y^2 = x^3 - 3x + b]. *)

Module P256.
Local Open Scope Z_scope.

Definition p : Z := 2 ^ 256 - 2 ^ 224 + 2 ^ 192 + 2 ^ 96 - 1.

Definition b : Z :=
  0x5ac635d8aa3a93e7b3ebbd55769886bc651d06b0cc53b0f63bce3c3e27d2604b.

Definition IsOnCurve (x y : Z) : bool :=
  (0 <=? x) && (x <? p) && (0 <=? y) && (y <? p)
  && ((y * y) mod p =? (x * x * x - 3 * x + b) mod p).

(** The base point, used as a sample key. *)
Definition Gx : Z :=
  0x6b17d1f2e12c4247f8bce6e563a440f277037d812deb33a0f4a13945d898c296.
Definition Gy : Z :=
  0x4fe342e2fe1a7f9b8ee7eb4a7c0f9e162bce33576b315ececbb6406837bf51f5.
End P256.

(** The two marks the inspector prints, as their UTF-8 bytes. *)
Definition cross_mark : string :=
  String "226"%char (String "157"%char (String "140"%char EmptyString)).
Definition check_mark : string :=
  String "226"%char (String "156"%char (String "133"%char EmptyString)).

(** ** The inspector

    The imported packages are parameters: the protobuf and ABI decoders and
    encoders of go-tdx-guest, its structural verifier, SHA-256, ECDSA
    verification and the file read.  A decoder returns [None] for a non-nil
    error, the verifier returns the text of its error or [None] for nil,
    and an encoder or the file read returns the error's text on the
    right. *)

Section Inspector.

Variable proto_Unmarshal : bytes -> option QuoteV4.
Variable abi_QuoteToProto : bytes -> option AnyQuote.
Variable verify_RawTdxQuote : bytes -> option string.
Variable abi_HeaderToAbiBytes : Header -> bytes + string.
Variable abi_TdQuoteBodyToAbiBytes : TDQuoteBody -> bytes + string.
Variable sha256_Sum256 : bytes -> bytes.
Variable ecdsa_Verify : Z -> Z -> bytes -> Z -> Z -> bool.
Variable os_ReadFile : string -> (Mem * Slice) + string.

Local Open Scope string_scope.

(** A call into an imported package: recorded, then its value. *)
Definition call {A} (c : libcall) (v : A) : M A := emit (Lib c) ;; ret v.

Definition createSignedPayload (quote : QuoteV4) : M (option bytes) :=
  match GetHeader quote, GetTdQuoteBody quote with
  | Some header, Some tdQuoteBody =>
      h <- call (Call_abi_HeaderToAbiBytes header)
             (abi_HeaderToAbiBytes header) ;;
      match h with
      | inr err =>
          print ("Warning: Could not convert header to ABI bytes: "
                 ++ err ++ nl) ;;
          ret None
      | inl headerBytes =>
          b <- call (Call_abi_TdQuoteBodyToAbiBytes tdQuoteBody)
                 (abi_TdQuoteBodyToAbiBytes tdQuoteBody) ;;
          match b with
          | inr err =>
              print ("Warning: Could not convert TD quote body to ABI bytes: "
                     ++ err ++ nl) ;;
              ret None
          | inl tdQuoteBodyBytes =>
              let signedData := (headerBytes ++ tdQuoteBodyBytes)%list in
              print ("Signed payload length: " ++ dec (length signedData)
                     ++ " bytes" ++ nl) ;;
              ret (Some signedData)
          end
      end
  | _, _ => ret None
  end.

Definition validateECDSASignature (quote : QuoteV4)
    (signature publicKey : bytes) : M unit :=
  println (nl ++ "Signature Validation (Offline Check):") ;;
  println "=====================================" ;;
  if negb (length signature =? 64)%nat then
    print (cross_mark ++ " Invalid signature length: "
           ++ dec (length signature) ++ " (expected 64)" ++ nl)
  else
    let r := SetBytes (firstn 32 signature) in
    let s := SetBytes (skipn 32 signature) in
    print ("Signature R: " ++ hex (firstn 32 signature) ++ nl) ;;
    print ("Signature S: " ++ hex (skipn 32 signature) ++ nl) ;;
    if negb (length publicKey =? 64)%nat then
      print (cross_mark ++ " Invalid public key length: "
             ++ dec (length publicKey) ++ " (expected 64)" ++ nl)
    else
      let x := SetBytes (firstn 32 publicKey) in
      let y := SetBytes (skipn 32 publicKey) in
      print ("Public Key X: " ++ hex (firstn 32 publicKey) ++ nl) ;;
      print ("Public Key Y: " ++ hex (skipn 32 publicKey) ++ nl) ;;
      onCurve <- call (Call_IsOnCurve x y) (P256.IsOnCurve x y) ;;
      if negb onCurve then
        println (cross_mark ++ " Public key is not on P-256 curve")
      else
        println (check_mark ++ " Public key is valid P-256 point") ;;
        signedPayload <- createSignedPayload quote ;;
        match signedPayload with
        | None => println (cross_mark ++ " Could not create signed payload")
        | Some payload =>
            hash <- call (Call_sha256_Sum256 payload)
                      (sha256_Sum256 payload) ;;
            print ("Signed data hash: " ++ hex hash ++ nl) ;;
            valid <- call (Call_ecdsa_Verify x y hash r s)
                       (ecdsa_Verify x y hash r s) ;;
            if valid then
              println (check_mark ++
                " Signature verification PASSED - Quote structure is valid!")
            else
              println (cross_mark ++ " Signature verification FAILED") ;;
              println "   This could mean:" ;;
              println "   - Incorrect signed data construction" ;;
              println "   - Quote has been tampered with" ;;
              println "   - Different signing algorithm used"
        end.

Definition validateQuoteStructure (quote : QuoteV4) : M unit :=
  println (nl ++ "Quote Structure Validation:") ;;
  println "===========================" ;;
  match GetHeader quote with
  | None => println (cross_mark ++ " No header found")
  | Some header =>
      print ("Quote Version: " ++ decN (GetVersion header) ++ nl) ;;
      print ("Attestation Key Type: "
             ++ decN (GetAttestationKeyType header) ++ nl) ;;
      print ("TEE Type: 0x" ++ hex08 (GetTeeType header) ++ nl) ;;
      print ("QE SVN: " ++ hex (GetQeSvn header) ++ nl) ;;
      print ("PCE SVN: " ++ hex (GetPceSvn header) ++ nl) ;;
      match GetSignedData quote with
      | Some signedData =>
          let signature := GetSignature signedData in
          let publicKey := GetEcdsaAttestationKey signedData in
          print ("Signature present: " ++ fmt_bool (0 <? length signature)%nat
                 ++ " (" ++ dec (length signature) ++ " bytes)" ++ nl) ;;
          print ("Public key present: " ++ fmt_bool (0 <? length publicKey)%nat
                 ++ " (" ++ dec (length publicKey) ++ " bytes)" ++ nl) ;;
          (if (length signature =? 64)%nat && (length publicKey =? 64)%nat then
             println (check_mark ++ " ECDSA P-256 signature format detected") ;;
             validateECDSASignature quote signature publicKey
           else
             print (cross_mark ++ " Unexpected signature/key sizes: sig="
                    ++ dec (length signature) ++ ", key="
                    ++ dec (length publicKey) ++ nl)) ;;
          (if (0 <? length signature)%nat
           then print ("Signature: " ++ hex signature ++ nl) else ret tt) ;;
          (if (0 <? length publicKey)%nat
           then print ("Public Key: " ++ hex publicKey ++ nl) else ret tt)
      | None => println (cross_mark ++ " No signed data found")
      end ;;
      println ""
  end.

(** [tdReport := &TDReport{}]: a zeroed struct of its own, placed after
    everything allocated so far. *)
Definition new_TDReport (m : Mem) : Mem * nat :=
  ((m ++ zeros sizeof_TDReport)%list, length m).

(** [l[i]] on a slice of byte strings. *)
Definition index (l : list bytes) (i : nat) : M bytes :=
  of_option (nth_error l i).

(** Lines 102-117 of [extractFromQuoteV4]: the struct is allocated and
    filled from the decoded body. *)
Definition fill_TDReport (m : Mem) (tdQuoteBody : TDQuoteBody)
  : M (Mem * nat) :=
  let (m, tdReport) := new_TDReport m in
  let rtmrs := GetRtmrs tdQuoteBody in
  m <- (if (4 <=? length rtmrs)%nat then
          r0 <- index rtmrs 0 ;; m <- field_copy m tdReport Rtmr0 r0 ;;
          r1 <- index rtmrs 1 ;; m <- field_copy m tdReport Rtmr1 r1 ;;
          r2 <- index rtmrs 2 ;; m <- field_copy m tdReport Rtmr2 r2 ;;
          r3 <- index rtmrs 3 ;; field_copy m tdReport Rtmr3 r3
        else ret m) ;;
  m <- field_copy m tdReport MrTd (GetMrTd tdQuoteBody) ;;
  m <- field_copy m tdReport MrConfigId (GetMrConfigId tdQuoteBody) ;;
  m <- field_copy m tdReport MrOwner (GetMrOwner tdQuoteBody) ;;
  m <- field_copy m tdReport MrOwnerConfig (GetMrOwnerConfig tdQuoteBody) ;;
  ret (m, tdReport).

Definition extractFromQuoteV4 (m : Mem) (quote : QuoteV4) : M unit :=
  validateQuoteStructure quote ;;
  match GetTdQuoteBody quote with
  | None => log_Fatal "No TD Quote Body found in quote"
  | Some tdQuoteBody =>
      r <- fill_TDReport m tdQuoteBody ;;
      printRTMRValues (fst r) (snd r)
  end.

Definition extractFromRawQuote (m : Mem) (quoteData : Slice) : M unit :=
  err <- call (Call_verify_RawTdxQuote (slice_bytes m quoteData))
           (verify_RawTdxQuote (slice_bytes m quoteData)) ;;
  match err with
  | Some e =>
      print ("Warning: Quote verification failed: " ++ e ++ nl) ;;
      println ("Attempting to extract RTMR values anyway..." ++ nl)
  | None => ret tt
  end ;;
  r <- extractTDReportFromRawQuote quoteData ;;
  match r with
  | inr err =>
      log_Fatal ("Failed to extract TD Report from raw quote: " ++ Error err)
  | inl tdReport => printRTMRValues m tdReport
  end.

(** Lines 69-89 of [main]: the three decoding strategies. *)
Definition decode (m : Mem) (quoteData : Slice) : M unit :=
  let B := slice_bytes m quoteData in
  r <- call (Call_proto_Unmarshal B) (proto_Unmarshal B) ;;
  match r with
  | Some quote =>
      println "Detected protobuf QuoteV4 format" ;;
      extractFromQuoteV4 m quote
  | None =>
      r <- call (Call_abi_QuoteToProto B) (abi_QuoteToProto B) ;;
      match r with
      | Some (IsQuoteV4 q4) =>
          println "Detected raw QuoteV4 format, converted to protobuf" ;;
          extractFromQuoteV4 m q4
      | _ =>
          println "Detected raw quote format, attempting manual parsing..." ;;
          extractFromRawQuote m quoteData
      end
  end.

Definition main (Args : list string) : M unit :=
  if negb (length Args =? 2)%nat then
    arg0 <- of_option (nth_error Args 0) ;;
    emit (Stderr ("Usage: " ++ arg0 ++ " <quote-file>" ++ nl)) ;;
    emit (Stderr ("Example: " ++ arg0 ++ " quote.bin" ++ nl)) ;;
    os_Exit 1
  else
    quoteFile <- of_option (nth_error Args 1) ;;
    print ("Reading TDX quote from: " ++ quoteFile ++ nl) ;;
    println "==============================" ;;
    match os_ReadFile quoteFile with
    | inr err => log_Fatal ("Failed to read quote file: " ++ err)
    | inl (m, quoteData) =>
        print ("Quote file size: " ++ dec (len quoteData) ++ " bytes"
               ++ nl ++ nl) ;;
        decode m quoteData
    end.

End Inspector.

(** ** The boot-measurement replay script

    The Python program the shell script feeds to [python3]; the hash is
    [hashlib]'s SHA-384 and stays a parameter. *)

Module Replay.
Section Script.

Variable hashlib_sha384 : bytes -> bytes.

Definition sha384 (data : bytes) : bytes := hashlib_sha384 data.

Definition extend (rtmr measurement : bytes) : bytes :=
  hashlib_sha384 (rtmr ++ measurement).

Definition memchr (sep : bytes) (c : byte) : bool :=
  existsb (Byte.eqb c) sep.

(** [bytes.rstrip(sep)]: the right end moves left while the byte before
    it is one of [sep]; [j] is the end reached so far. *)
Fixpoint rstrip_end (sep s : bytes) (j : nat) : nat :=
  match j with
  | 0 => 0
  | S j' => if memchr sep (nth j' s x00) then rstrip_end sep s j' else j
  end.

Definition rstrip (s sep : bytes) : bytes :=
  firstn (rstrip_end sep s (length s)) s.

(** [bytes(48)]. *)
Definition bytes48 : bytes := zeros 48.

(** The register the script computes from the contents of the three
    files. *)
Definition replay (kernel_file initrd_file cmdline_file : bytes) : bytes :=
  let kernel := kernel_file in
  let initrd := initrd_file in
  let cmdline := rstrip cmdline_file [x0a] in
  let rtmr := bytes48 in
  let rtmr := extend rtmr (sha384 kernel) in
  let rtmr := extend rtmr (sha384 initrd) in
  let rtmr := extend rtmr (sha384 cmdline) in
  rtmr.

(** What the script prints. *)
Definition script (kernel_file initrd_file cmdline_file : bytes) : string :=
  ("RTMR[1] = " ++ hex (replay kernel_file initrd_file cmdline_file) ++ nl)%string.

End Script.
End Replay.

(** ** Vocabulary of the statements *)

(** The calls into imported packages a run made, in order. *)
Fixpoint calls (t : list event) : list libcall :=
  match t with
  | [] => []
  | Lib c :: t' => c :: calls t'
  | _ :: t' => calls t'
  end.

Definition is_ecdsa_Verify (c : libcall) : bool :=
  match c with Call_ecdsa_Verify _ _ _ _ _ => true | _ => false end.

Definition is_sha256 (c : libcall) : bool :=
  match c with Call_sha256_Sum256 _ => true | _ => false end.

(** Events of the second and third decoding strategy. *)
Definition raw_banner : string :=
  ("Detected raw quote format, attempting manual parsing..." ++ nl)%string.

Definition raw_strategy (e : event) : bool :=
  match e with
  | Lib (Call_verify_RawTdxQuote _) => true
  | Stdout s => String.eqb s raw_banner
  | _ => false
  end.

Definition later_strategy (e : event) : bool :=
  match e with
  | Lib (Call_abi_QuoteToProto _) => true
  | _ => raw_strategy e
  end.

(** Events that end or report a failed run. *)
Definition is_failure (e : event) : bool :=
  match e with
  | LogFatal _ | Stderr _ => true
  | _ => false
  end.

(** The content of a byte array [dst] after [copy(dst[:], src)]. *)
Definition go_copy (dst src : bytes) : bytes :=
  firstn (length dst) src ++ skipn (length src) dst.

(** A struct in memory, seen as the values of its fields. *)
Definition image (fs : list (Field * nat)) (v : Field -> bytes) : bytes :=
  flat_map (fun fn => v (fst fn)) fs.

Definition sized (fs : list (Field * nat)) (v : Field -> bytes) : Prop :=
  forall f n, In (f, n) fs -> length (v f) = n.

Definition upd (v : Field -> bytes) (f : Field) (x : bytes) : Field -> bytes :=
  fun g => if Field_eqb f g then x else v g.

(** The zero value [TDReport{}]. *)
Definition zero_fields : Field -> bytes := fun f => zeros (field_size f).

(** The fields [printRTMRValues] reads, in the order it reads them. *)
Definition printed_fields : list Field :=
  [Rtmr0; Rtmr1; Rtmr2; Rtmr3; MrTd; MrConfigId; MrOwner; MrOwnerConfig].

(** What [printRTMRValues] writes for given field values. *)
Definition report_events (p : nat) (v : Field -> bytes) : list event :=
  [ Stdout ("Runtime TD Report RTMR Values:" ++ nl)%string;
    Stdout ("==============================" ++ nl)%string;
    MemRead (p + 808) 48; MemRead (p + 856) 48;
    MemRead (p + 904) 48; MemRead (p + 952) 48;
    Stdout (rtmr_line 0 (v Rtmr0)); Stdout (rtmr_line 1 (v Rtmr1));
    Stdout (rtmr_line 2 (v Rtmr2)); Stdout (rtmr_line 3 (v Rtmr3));
    MemRead (p + 616) 48;
    Stdout (nl ++ "MrTd (Trust Domain Measurement): " ++ hex (v MrTd) ++ nl)%string;
    MemRead (p + 664) 48;
    Stdout ("MrConfigId: " ++ hex (v MrConfigId) ++ nl)%string;
    MemRead (p + 712) 48;
    Stdout ("MrOwner: " ++ hex (v MrOwner) ++ nl)%string;
    MemRead (p + 760) 48;
    Stdout ("MrOwnerConfig: " ++ hex (v MrOwnerConfig) ++ nl)%string;
    Stdout ((nl ++ "RTMR Meanings:") ++ nl)%string;
    Stdout ("RTMR[0]: Static/dynamic configuration data" ++ nl)%string;
    Stdout ("RTMR[1]: OS kernel, boot parameters, initrd" ++ nl)%string;
    Stdout ("RTMR[2]: Additional boot components, ACPI tables" ++ nl)%string;
    Stdout ("RTMR[3]: Application-specific measurements" ++ nl)%string;
    Stdout ((nl ++ "Note: These are the RUNTIME RTMR values from the actual TD Report") ++ nl)%string ].

(** The field values of the report [extractFromQuoteV4] builds from a
    decoded body: what each [copy] leaves in the zeroed struct. *)
Definition body_fields (b : TDQuoteBody) : Field -> bytes :=
  let rtmrs := GetRtmrs b in
  let rtmr i :=
    if 4 <=? length rtmrs then go_copy (zeros 48) (nth i rtmrs []) else zeros 48 in
  fun f =>
    match f with
    | Rtmr0 => rtmr 0 | Rtmr1 => rtmr 1 | Rtmr2 => rtmr 2 | Rtmr3 => rtmr 3
    | MrTd => go_copy (zeros 48) (GetMrTd b)
    | MrConfigId => go_copy (zeros 48) (GetMrConfigId b)
    | MrOwner => go_copy (zeros 48) (GetMrOwner b)
    | MrOwnerConfig => go_copy (zeros 48) (GetMrOwnerConfig b)
    | _ => zeros (field_size f)
    end.

(** The run ends normally. *)
Definition completes {A} (c : M A) : Prop := exists a, result c = Done a.

(** The fields [extractFromQuoteV4] copies, each with its source. *)
Definition copied_fields (b : TDQuoteBody) : list (Field * bytes) :=
  let rtmrs := GetRtmrs b in
  (if 4 <=? length rtmrs
   then [ (Rtmr0, nth 0 rtmrs []); (Rtmr1, nth 1 rtmrs []);
          (Rtmr2, nth 2 rtmrs []); (Rtmr3, nth 3 rtmrs []) ]
   else [])
  ++ [ (MrTd, GetMrTd b); (MrConfigId, GetMrConfigId b);
       (MrOwner, GetMrOwner b); (MrOwnerConfig, GetMrOwnerConfig b) ].

(** The value of a byte string read as a big-endian unsigned integer, as
    the specification words it: the first byte is the most significant. *)
Fixpoint big_endian (l : bytes) : Z :=
  match l with
  | [] => 0
  | b :: t => Z.of_N (Byte.to_N b) * 256 ^ Z.of_nat (length t) + big_endian t
  end%Z.

(** The bytes [createSignedPayload] returns, [None] standing for nil. *)
Definition signed_payload (encH : Header -> bytes + string)
    (encB : TDQuoteBody -> bytes + string) (quote : QuoteV4) : option bytes :=
  match GetHeader quote, GetTdQuoteBody quote with
  | Some header, Some body =>
      match encH header, encB body with
      | inl headerBytes, inl bodyBytes => Some (headerBytes ++ bodyBytes)
      | _, _ => None
      end
  | _, _ => None
  end.

(** The sixteen digits of lowercase hexadecimal, and the reading of a
    hexadecimal text back into bytes. *)
Definition lower_hex_digits : list ascii :=
  list_ascii_of_string "0123456789abcdef".

Fixpoint position (c : ascii) (l : list ascii) : option N :=
  match l with
  | [] => None
  | d :: t => if Ascii.eqb c d then Some 0%N
              else option_map N.succ (position c t)
  end.

Definition unhex_digit (c : ascii) : option N := position c lower_hex_digits.

Fixpoint unhex (s : string) : option bytes :=
  match s with
  | EmptyString => Some []
  | String hi (String lo t) =>
      match unhex_digit hi, unhex_digit lo, unhex t with
      | Some h, Some l, Some r =>
          match Byte.of_N (16 * h + l) with
          | Some b => Some (b :: r)
          | None => None
          end
      | _, _, _ => None
      end
  | String _ EmptyString => None
  end.

(** ** Sample inputs *)

(** A 632-byte quote of zero bytes as [os.ReadFile] returns it: the buffer
    has room for one more byte and sits in a 640-byte block; whatever the
    allocator put behind that block is here 408 bytes of [0xff]. *)
Definition short_quote_mem : Mem := zeros 640 ++ repeat xff 408.
Definition short_quote : Slice := mkSlice 0 632 633.

(** The same quote with nothing mapped behind its block. *)
Definition short_quote_mem_end : Mem := zeros 640.

(** A 1096-byte quote whose byte at index [i] is [i mod 251]. *)
Definition long_quote_mem : Mem :=
  map (fun i => match Byte.of_N (N.of_nat (i mod 251)) with
                | Some b => b | None => x00 end) (seq 0 1096).
Definition long_quote : Slice := mkSlice 0 1096 1096.

(** A register that is zero except in its last byte. *)
Definition last_byte_set : bytes := zeros 47 ++ [x01].

(** A sample header and body, and the base point as a 64-byte key. *)
Definition sample_header : Header := mkHeader 4 2 129 [x00; x00] [x00; x00].

Definition sample_body : TDQuoteBody :=
  mkTDQuoteBody [x01; x02] (repeat x03 50) [] (zeros 48)
    [repeat x0a 48; [x0b]; repeat x0c 49; last_byte_set].

(** 32 big-endian bytes of a number below [2^256]. *)
Definition be32 (z : Z) : bytes :=
  map (fun k => match Byte.of_N (Z.to_N ((z / 256 ^ Z.of_nat (31 - k)) mod 256)) with
                | Some b => b | None => x00 end) (seq 0 32).

Definition sample_key : bytes := be32 P256.Gx ++ be32 P256.Gy.
Definition sample_signature : bytes := be32 1 ++ be32 2.
Definition off_curve_key : bytes := be32 1 ++ be32 1.

Definition sample_signed : SignedData := mkSignedData sample_signature sample_key.

Definition sample_quote : QuoteV4 :=
  mkQuoteV4 (Some sample_header) (Some sample_body) (Some sample_signed).

(** A decoded quote with a header and signed data but no TD quote body. *)
Definition bodyless_quote : QuoteV4 :=
  mkQuoteV4 (Some sample_header) None (Some sample_signed).

(** Library behaviours for sample runs: encoders that succeed, an encoder
    that fails, a stand-in for the hash, and the two verdicts. *)
Definition enc_header_ok : Header -> bytes + string := fun _ => inl [x01; x02].
Definition enc_body_ok : TDQuoteBody -> bytes + string := fun _ => inl [x03].
Definition enc_body_fails : TDQuoteBody -> bytes + string :=
  fun _ => inr "bad size"%string.
Definition hash_stub : bytes -> bytes := fun d => firstn 32 (d ++ zeros 32).
Definition ecdsa_accepts : Z -> Z -> bytes -> Z -> Z -> bool :=
  fun _ _ _ _ _ => true.
Definition ecdsa_rejects : Z -> Z -> bytes -> Z -> Z -> bool :=
  fun _ _ _ _ _ => false.


(** ** Vocabulary of the further properties *)

(** A read of [snd an] bytes at [fst an] stays inside the bytes of [s]. *)
Definition inside_quote (s : Slice) (an : nat * nat) : Prop :=
  ptr s <= fst an /\ fst an + snd an <= ptr s + len s.

(** A read stays inside the struct of [sizeof_TDReport] bytes at [p]. *)
Definition inside_struct (p : nat) (an : nat * nat) : Prop :=
  p <= fst an /\ fst an + snd an <= p + sizeof_TDReport.

(** The field values a [*TDReport] at byte 48 of a quote [B] shows. *)
Definition quote_fields (B : bytes) : Field -> bytes :=
  fun f => firstn (field_size f) (skipn (48 + field_offset f) B).

(** What [extractFromRawQuote] prints for the result of the library's
    verification. *)
Definition verification_warning (err : option string) : list event :=
  match err with
  | Some e =>
      [ Stdout ("Warning: Quote verification failed: " ++ e ++ nl)%string;
        Stdout (("Attempting to extract RTMR values anyway..." ++ nl) ++ nl)%string ]
  | None => []
  end.

(** The run does not die in the runtime; when it leaves the process, the
    exit code is 1. *)
Definition no_panic {A} (c : M A) : Prop := result c <> Panic.

Definition exits_with_1 {A} (c : M A) : Prop :=
  forall code, result c = Exit code -> code = 1.

(** More sample inputs: a 1048-byte quote, the shortest one the raw path
    reads without leaving it, and a command line. *)
Definition exact_quote_mem : Mem := firstn 1048 long_quote_mem.
Definition exact_quote : Slice := mkSlice 0 1048 1048.

Definition sample_cmdline : bytes := [x72; x6f; x0a; x71].

(** * Properties *)

(** ** The definitions on small inputs *)

Example hex_sample : hex [x00; x0a; xff] = "000aff"%string.
Proof. reflexivity. Qed.

Example dec_sample : dec 632 = "632"%string.
Proof. reflexivity. Qed.

Example hex08_sample : hex08 129 = "00000081"%string.
Proof. reflexivity. Qed.

Example SetBytes_sample : SetBytes [x01; x00; x02] = 65538%Z.
Proof. reflexivity. Qed.

Example go_copy_short : go_copy (zeros 4) [x01; x02] = [x01; x02; x00; x00].
Proof. reflexivity. Qed.

Example go_copy_long :
  go_copy (zeros 2) [x01; x02; x03] = [x01; x02].
Proof. reflexivity. Qed.

Example rstrip_sample :
  Replay.rstrip [x43; x0a; x20; x0a; x0a] [x0a] = [x43; x0a; x20].
Proof. reflexivity. Qed.

Example base_point_on_curve : P256.IsOnCurve P256.Gx P256.Gy = true.
Proof. vm_compute. reflexivity. Qed.

Example sample_key_is_base_point :
  (SetBytes (firstn 32 sample_key), SetBytes (skipn 32 sample_key))
  = (P256.Gx, P256.Gy).
Proof. vm_compute. reflexivity. Qed.

Example rtmr_line_zero :
  rtmr_line 2 (zeros 48) = ("RTMR[2]: <all zeros - uninitialized>" ++ nl)%string.
Proof. reflexivity. Qed.

(** ** The run monad *)

Lemma bind_ret_l {A B} (a : A) (k : A -> M B) : bind (ret a) k = k a.
Proof. unfold bind, ret. destruct (k a); reflexivity. Qed.

Lemma bind_done {A B} (t : list event) (a : A) (k : A -> M B) :
  bind (t, Done a) k = (t ++ trace (k a), result (k a)).
Proof. unfold bind, trace, result. destruct (k a); reflexivity. Qed.

Lemma trace_bind {A B} (c : M A) (k : A -> M B) :
  trace (bind c k) =
  trace c ++ match result c with Done a => trace (k a) | _ => [] end.
Proof.
  destruct c as [t [a | code | ]]; unfold bind, trace, result; simpl.
  - destruct (k a); reflexivity.
  - now rewrite app_nil_r.
  - now rewrite app_nil_r.
Qed.

Lemma result_bind {A B} (c : M A) (k : A -> M B) :
  result (bind c k) =
  match result c with
  | Done a => result (k a)
  | Exit code => Exit code
  | Panic => Panic
  end.
Proof.
  destruct c as [t [a | code | ]]; unfold bind, result; simpl; try reflexivity.
  destruct (k a); reflexivity.
Qed.

Lemma M_eta {A} (c : M A) : c = (trace c, result c).
Proof. destruct c; reflexivity. Qed.

Lemma reads_app (t u : list event) : reads (t ++ u) = reads t ++ reads u.
Proof.
  induction t as [| e t IH]; simpl; [reflexivity |].
  destruct e; simpl; now rewrite IH.
Qed.

Lemma calls_app (t u : list event) : calls (t ++ u) = calls t ++ calls u.
Proof.
  induction t as [| e t IH]; simpl; [reflexivity |].
  destruct e; simpl; now rewrite IH.
Qed.

Lemma stdout_app (t u : list event) :
  stdout (t ++ u) = (stdout t ++ stdout u)%string.
Proof.
  induction t as [| e t IH]; simpl; [reflexivity |].
  destruct e; simpl; rewrite IH; try reflexivity.
  induction s as [| c s IHs]; simpl; [reflexivity | now rewrite IHs].
Qed.

(** ** The layout of TDReport *)

Lemma Field_eqb_eq (f g : Field) : Field_eqb f g = true <-> f = g.
Proof. destruct f, g; simpl; split; intros H; congruence. Qed.

Lemma Field_eqb_refl (f : Field) : Field_eqb f f = true.
Proof. now apply Field_eqb_eq. Qed.

(** The offsets and sizes Go derives from the declaration are those of the
    table in the specification. *)
Lemma layout_table :
  map (fun fn => (fst fn, field_offset (fst fn), field_size (fst fn))) TDReport =
  [ (ReportType, 0, 4); (Reserved1, 4, 12); (CpuSvn, 16, 16);
    (TeeTcbInfoHash, 32, 48); (TeeInfoHash, 80, 48); (ReportData, 128, 64);
    (Reserved2, 192, 32); (MacStruct, 224, 256); (TeeTcbSvn, 480, 16);
    (MrSeam, 496, 48); (MrSignerSeam, 544, 48); (SeamAttributes, 592, 8);
    (TdAttributes, 600, 8); (Xfam, 608, 8); (MrTd, 616, 48);
    (MrConfigId, 664, 48); (MrOwner, 712, 48); (MrOwnerConfig, 760, 48);
    (Rtmr0, 808, 48); (Rtmr1, 856, 48); (Rtmr2, 904, 48); (Rtmr3, 952, 48);
    (ServTdHash, 1000, 48) ].
Proof. reflexivity. Qed.

Lemma sizeof_TDReport_1048 : sizeof_TDReport = 1048.
Proof. reflexivity. Qed.

Lemma field_in_struct (f : Field) :
  field_offset f + field_size f <= sizeof_TDReport.
Proof. destruct f; vm_compute; lia. Qed.

Lemma field_declared (f : Field) : In (f, field_size f) TDReport.
Proof. destruct f; vm_compute; tauto. Qed.

(** ** Loads *)

Lemma load_inside (m : Mem) (a n : nat) :
  a + n <= length m -> load m a n = Some (firstn n (skipn a m)).
Proof. intros H. unfold load. now rewrite (proj2 (Nat.leb_le _ _) H). Qed.


Lemma skipn_firstn_slice (B : bytes) (k a n : nat) :
  a + n <= k ->
  firstn n (skipn a (firstn k B)) = firstn n (skipn a B).
Proof.
  intros H. rewrite skipn_firstn_comm, firstn_firstn.
  f_equal. lia.
Qed.

(** A load inside a slice returns the corresponding bytes of the slice. *)
Lemma load_in_slice (m : Mem) (s : Slice) (o n : nat) :
  wf_slice m s -> o + n <= len s ->
  load m (ptr s + o) n = byte_range (slice_bytes m s) o (o + n).
Proof.
  intros [Hc Hm] Ho.
  rewrite load_inside by lia.
  unfold byte_range, slice_bytes.
  assert (Hl : length (firstn (len s) (skipn (ptr s) m)) = len s)
    by (rewrite length_firstn, length_skipn; lia).
  rewrite Hl.
  rewrite (proj2 (Nat.leb_le o (o + n))) by lia.
  rewrite (proj2 (Nat.leb_le (o + n) (len s))) by lia.
  simpl. f_equal.
  replace (o + n - o) with n by lia.
  rewrite skipn_firstn_slice by lia.
  now rewrite skipn_skipn, (Nat.add_comm o).
Qed.

(** ** extractTDReportFromRawQuote *)

Lemma go_reslice_ok (s : Slice) (lo hi : nat) :
  lo <= hi -> hi <= cap s ->
  go_reslice s lo hi = ret (mkSlice (ptr s + lo) (hi - lo) (cap s - lo)).
Proof.
  intros H1 H2. unfold go_reslice.
  now rewrite (proj2 (Nat.leb_le _ _) H1), (proj2 (Nat.leb_le _ _) H2).
Qed.

Lemma extract_too_short (quoteData : Slice) :
  len quoteData < 632 ->
  extractTDReportFromRawQuote quoteData =
  ret (inr (QuoteTooShort (len quoteData))).
Proof.
  intros H. unfold extractTDReportFromRawQuote.
  now rewrite (proj2 (Nat.ltb_lt _ _) H).
Qed.

(** With at least 632 bytes the slice expression and the element address
    cannot panic and the size check cannot fail: the result is the address
    of byte 48. *)
Lemma extract_long_enough (quoteData : Slice) :
  len quoteData <= cap quoteData -> 632 <= len quoteData ->
  extractTDReportFromRawQuote quoteData = ret (inl (ptr quoteData + 48)).
Proof.
  intros Hc H. unfold extractTDReportFromRawQuote.
  rewrite (proj2 (Nat.ltb_ge _ _) H).
  rewrite go_reslice_ok by lia.
  rewrite bind_ret_l. cbn [len ptr].
  change (632 - 48 =? 584) with true. cbn [negb].
  unfold go_elem_addr. cbn [len ptr].
  change (0 <? 632 - 48) with true. cbv iota.
  rewrite bind_ret_l. now rewrite Nat.add_0_r.
Qed.

(** ** Properties of every event of a run *)

Section AllEvents.
Variable P : event -> Prop.

Lemma all_bind {A B} (c : M A) (k : A -> M B) :
  Forall P (trace c) -> (forall a, Forall P (trace (k a))) ->
  Forall P (trace (bind c k)).
Proof.
  intros Hc Hk. rewrite trace_bind. apply Forall_app. split; [assumption |].
  destruct (result c); auto.
Qed.

Lemma all_ret {A} (a : A) : Forall P (trace (ret a)).
Proof. constructor. Qed.

Lemma all_panic {A} : Forall P (trace (@panic A)).
Proof. constructor. Qed.

Lemma all_exit {A} (code : nat) : Forall P (trace (@os_Exit A code)).
Proof. constructor. Qed.

Lemma all_of_option {A} (o : option A) : Forall P (trace (of_option o)).
Proof. destruct o; constructor. Qed.

Lemma all_emit (e : event) : P e -> Forall P (trace (emit e)).
Proof. intros H. repeat constructor. exact H. Qed.
End AllEvents.

(** Walks through a run built from [bind], [emit] and case distinctions,
    leaving one goal per emitted event. *)
Ltac all_events :=
  repeat first
    [ apply all_ret | apply all_panic | apply all_exit | apply all_of_option
    | apply all_bind; [| intros ?]
    | apply all_emit
    | match goal with
      | |- Forall _ (trace (match ?x with _ => _ end)) => destruct x
      end ].

(** ** printRTMRValues *)

Lemma printRTMRValues_loaded (m : Mem) (p : nat) (v : Field -> bytes) :
  (forall f, In f printed_fields ->
             load m (p + field_offset f) (field_size f) = Some (v f)) ->
  printRTMRValues m p = (report_events p v, Done tt).
Proof.
  intros H. unfold printRTMRValues, field_load.
  rewrite !H by (unfold printed_fields; simpl; tauto).
  reflexivity.
Qed.

(** Whatever the memory holds, every read of [printRTMRValues] is a
    48-byte read that starts at least 616 bytes after the pointer. *)
Lemma printRTMRValues_reads (m : Mem) (p : nat) :
  Forall (fun e => match e with
                   | MemRead a n => p + 616 <= a /\ n = 48
                   | _ => True
                   end)
         (trace (printRTMRValues m p)).
Proof.
  unfold printRTMRValues, field_load, println, print.
  all_events; try exact I; (split; [| reflexivity]);
    match goal with
    | |- _ <= _ + field_offset ?f =>
        let n := eval vm_compute in (field_offset f) in
        change (field_offset f) with n
    end; lia.
Qed.

Lemma reads_spec (P : nat -> nat -> Prop) (t : list event) :
  Forall (fun e => match e with MemRead a n => P a n | _ => True end) t ->
  Forall (fun an => P (fst an) (snd an)) (reads t).
Proof.
  induction 1 as [| e t He _ IH]; simpl; [constructor |].
  destruct e; auto.
Qed.

(** ** extractFromRawQuote *)


Lemma extractFromRawQuote_long (verify : bytes -> option string)
    (m : Mem) (s : Slice) :
  len s <= cap s -> 632 <= len s ->
  exists pre,
    reads pre = [] /\
    extractFromRawQuote verify m s =
    (pre ++ trace (printRTMRValues m (ptr s + 48)),
     result (printRTMRValues m (ptr s + 48))).
Proof.
  intros Hc H. unfold extractFromRawQuote.
  rewrite (extract_long_enough s Hc H).
  destruct (verify (slice_bytes m s)) as [e |].
  - exists [Lib (Call_verify_RawTdxQuote (slice_bytes m s));
            Stdout ("Warning: Quote verification failed: " ++ e ++ nl)%string;
            Stdout (("Attempting to extract RTMR values anyway..." ++ nl) ++ nl)%string].
    split; [reflexivity |].
    unfold call, print, println, emit, ret, bind.
    destruct (printRTMRValues m (ptr s + 48)) as [t r]. reflexivity.
  - exists [Lib (Call_verify_RawTdxQuote (slice_bytes m s))].
    split; [reflexivity |].
    unfold call, print, println, emit, ret, bind.
    destruct (printRTMRValues m (ptr s + 48)) as [t r]. reflexivity.
Qed.

(** In raw mode every read through the report pointer is a 48-byte read
    that starts at byte 664 of the quote or later: none of them touches
    the sub-slice [B[48:632]]. *)
Lemma raw_reads_beyond_report (verify : bytes -> option string)
    (m : Mem) (s : Slice) :
  len s <= cap s -> 632 <= len s ->
  Forall (fun an => ptr s + 664 <= fst an /\ snd an = 48)
         (reads (trace (extractFromRawQuote verify m s))).
Proof.
  intros Hc H.
  destruct (extractFromRawQuote_long verify m s Hc H) as (pre & Hpre & ->).
  unfold trace at 1; simpl fst.
  rewrite reads_app, Hpre. simpl app.
  apply (reads_spec (fun a n => ptr s + 664 <= a /\ n = 48)).
  eapply Forall_impl; [| apply printRTMRValues_reads].
  intros [] ; auto. intros [Ha Hn]. split; [lia | exact Hn].
Qed.

(** C1 (the code departs from the claim): at a 632-byte quote, raw-mode
    extraction returns a pointer to byte 48 and the report is then read
    through it at bytes 664..1047, every read starting at or after the end
    of the quote.  What is printed as RTMR[0] are the 48 bytes that follow
    the quote in memory, and when nothing is mapped there the run dies on
    the first read. *)
Theorem C1_raw_reads_leave_quote :
  forall verify : bytes -> option string,
    let run := extractFromRawQuote verify short_quote_mem short_quote in
    slice_bytes short_quote_mem short_quote = zeros 632
    /\ extractTDReportFromRawQuote short_quote = ret (inl 48)
    /\ reads (trace run) =
       [(856, 48); (904, 48); (952, 48); (1000, 48);
        (664, 48); (712, 48); (760, 48); (808, 48)]
    /\ Forall (fun an => ptr short_quote + len short_quote <= fst an)
              (reads (trace run))
    /\ In (Stdout (hex_line 0 (repeat xff 48))) (trace run)
    /\ result run = Done tt
    /\ result (extractFromRawQuote verify short_quote_mem_end short_quote)
       = Panic
    /\ reads (trace (extractFromRawQuote verify short_quote_mem_end short_quote))
       = [(856, 48)].
Proof.
  intros verify run.
  assert (Hlong : len short_quote <= cap short_quote /\ 632 <= len short_quote)
    by (simpl; lia).
  destruct Hlong as [Hc Hl].
  assert (Hrun : exists pre, reads pre = [] /\
            run = (pre ++ report_events 48 (fun _ => repeat xff 48), Done tt)).
  { destruct (extractFromRawQuote_long verify short_quote_mem short_quote Hc Hl)
      as (pre & Hpre & E).
    exists pre. split; [exact Hpre |].
    unfold run. rewrite E.
    change (ptr short_quote + 48) with 48.
    rewrite (printRTMRValues_loaded short_quote_mem 48 (fun _ => repeat xff 48)).
    - reflexivity.
    - intros f Hf. simpl in Hf.
      destruct Hf as [<- | [<- | [<- | [<- | [<- | [<- | [<- | [<- | []]]]]]]]];
        vm_compute; reflexivity. }
  destruct Hrun as (pre & Hpre & Erun).
  assert (Hend : exists pre',
            extractFromRawQuote verify short_quote_mem_end short_quote =
            (pre' ++ [Stdout ("Runtime TD Report RTMR Values:" ++ nl)%string;
                      Stdout ("==============================" ++ nl)%string;
                      MemRead 856 48], Panic) /\ reads pre' = []).
  { destruct (extractFromRawQuote_long verify short_quote_mem_end short_quote Hc Hl)
      as (pre' & Hpre' & E).
    exists pre'. split; [| exact Hpre']. rewrite E. reflexivity. }
  destruct Hend as (pre' & Eend & Hpre').
  split; [vm_compute; reflexivity |].
  split; [apply extract_long_enough; assumption |].
  split; [rewrite Erun; unfold trace; simpl fst; rewrite reads_app, Hpre;
          reflexivity |].
  split.
  { rewrite Erun; unfold trace; simpl fst; rewrite reads_app, Hpre.
    simpl app. change (ptr short_quote + len short_quote) with 632.
    change (reads (report_events 48 (fun _ : Field => repeat xff 48)))
      with [(856, 48); (904, 48); (952, 48); (1000, 48);
            (664, 48); (712, 48); (760, 48); (808, 48)].
    repeat constructor; simpl fst; lia. }
  split.
  { rewrite Erun. unfold trace; simpl fst. apply in_or_app. right.
    unfold report_events.
    do 6 right. left. reflexivity. }
  split; [rewrite Erun; reflexivity |].
  split; [rewrite Eend; reflexivity |].
  rewrite Eend. unfold trace; simpl fst. rewrite reads_app, Hpre'. reflexivity.
Qed.

(** C2 (the code departs from the claim): at a 632-byte quote raw-mode
    extraction succeeds, but the fields are not the byte ranges of the
    quote the table names.  The quote is 632 zero bytes and has no bytes
    [B[856:904]] or [B[664:712]]; read through the report pointer, RTMR0
    and MrTd are the 48 bytes of [0xff] that lie 856 and 664 bytes behind
    the quote's start in memory, and with nothing mapped there the read
    dies.  So no field value of the quote's own bytes is produced for
    RTMR0. *)
Theorem C2_short_quote_field_outside_quote :
  let B := slice_bytes short_quote_mem short_quote in
  let tdReport := ptr short_quote + 48 in
  wf_slice short_quote_mem short_quote
  /\ length B = 632 + 0
  /\ B = zeros 632
  /\ extractTDReportFromRawQuote short_quote = ret (inl tdReport)
  /\ result (field_load short_quote_mem tdReport Rtmr0) = Done (repeat xff 48)
  /\ byte_range B (48 + 808) (48 + 856) = None
  /\ result (field_load short_quote_mem tdReport MrTd) = Done (repeat xff 48)
  /\ byte_range B (48 + 616) (48 + 664) = None
  /\ result (field_load short_quote_mem_end tdReport Rtmr0) = Panic
  /\ ~ (exists v,
          result (field_load short_quote_mem tdReport Rtmr0) = Done v
          /\ byte_range B (48 + 808) (48 + 856) = Some v).
Proof.
  intros B tdReport.
  split; [split; vm_compute; lia |].
  split; [vm_compute; reflexivity |].
  split; [vm_compute; reflexivity |].
  split; [apply extract_long_enough; simpl; lia |].
  split; [vm_compute; reflexivity |].
  split; [vm_compute; reflexivity |].
  split; [vm_compute; reflexivity |].
  split; [vm_compute; reflexivity |].
  split; [vm_compute; reflexivity |].
  intros (v & _ & H). vm_compute in H. discriminate H.
Qed.

(** X18: for a raw quote of at least 632 bytes extraction returns the
    report pointer without error, and every field whose range
    [48+offset .. 48+offset+width] lies inside the quote is read as exactly
    that byte range of the quote; with at least 1096 bytes that is every
    field of the struct. *)
Theorem X18_raw_fields_inside_quote :
  forall (m : Mem) (quoteData : Slice),
    wf_slice m quoteData -> 632 <= len quoteData ->
    let B := slice_bytes m quoteData in
    let tdReport := ptr quoteData + 48 in
    extractTDReportFromRawQuote quoteData = ret (inl tdReport)
    /\ (forall f,
          48 + field_offset f + field_size f <= len quoteData ->
          exists v,
            result (field_load m tdReport f) = Done v
            /\ length v = field_size f
            /\ byte_range B (48 + field_offset f)
                 (48 + field_offset f + field_size f) = Some v)
    /\ (1096 <= len quoteData ->
        forall f, exists v,
            result (field_load m tdReport f) = Done v
            /\ byte_range B (48 + field_offset f)
                 (48 + field_offset f + field_size f) = Some v).
Proof.
  intros m s Hwf Hl B p.
  assert (Hfield : forall f,
            48 + field_offset f + field_size f <= len s ->
            exists v,
              result (field_load m p f) = Done v
              /\ length v = field_size f
              /\ byte_range B (48 + field_offset f)
                   (48 + field_offset f + field_size f) = Some v).
  { intros f Hf.
    pose proof (load_in_slice m s (48 + field_offset f) (field_size f) Hwf Hf)
      as E.
    unfold B. rewrite <- E.
    destruct Hwf as [Hc Hm].
    rewrite load_inside by lia.
    exists (firstn (field_size f) (skipn (ptr s + (48 + field_offset f)) m)).
    split; [| split; [| reflexivity]].
    - unfold field_load, p. rewrite Nat.add_assoc in *.
      rewrite load_inside by lia. reflexivity.
    - rewrite length_firstn, length_skipn. lia. }
  split; [apply extract_long_enough; [apply Hwf | exact Hl] |].
  split; [exact Hfield |].
  intros H1096 f.
  destruct (Hfield f) as (v & Hv & _ & Hr).
  - pose proof (field_in_struct f) as Hs. rewrite sizeof_TDReport_1048 in Hs. lia.
  - exists v. split; assumption.
Qed.

Lemma X18_raw_fields_inside_quote_witness :
  wf_slice long_quote_mem long_quote /\ 632 <= len long_quote
  /\ extractTDReportFromRawQuote long_quote = ret (inl 48)
  /\ exists v,
       result (field_load long_quote_mem 48 Rtmr0) = Done v
       /\ byte_range (slice_bytes long_quote_mem long_quote)
            (48 + field_offset Rtmr0)
            (48 + field_offset Rtmr0 + field_size Rtmr0) = Some v.
Proof.
  assert (Hwf : wf_slice long_quote_mem long_quote)
    by (split; vm_compute; lia).
  assert (Hl : 632 <= len long_quote) by (simpl; lia).
  split; [exact Hwf |]. split; [exact Hl |].
  destruct (X18_raw_fields_inside_quote long_quote_mem long_quote Hwf Hl)
    as (E & _ & Hall).
  split; [exact E |].
  apply (Hall ltac:(simpl; lia) Rtmr0).
Defined.

(** C3: a buffer shorter than 632 bytes makes raw-mode extraction return
    the quote-too-short error and no report pointer; the run then ends
    with that error as a fatal log entry, exit code 1, and without a single
    field read. *)
Theorem C3_quote_too_short :
  forall (verify : bytes -> option string) (m : Mem) (quoteData : Slice),
    len quoteData < 632 ->
    extractTDReportFromRawQuote quoteData
    = ret (inr (QuoteTooShort (len quoteData)))
    /\ result (extractFromRawQuote verify m quoteData) = Exit 1
    /\ reads (trace (extractFromRawQuote verify m quoteData)) = []
    /\ In (LogFatal ("Failed to extract TD Report from raw quote: "
                     ++ "quote too short: " ++ dec (len quoteData) ++ " bytes")%string)
          (trace (extractFromRawQuote verify m quoteData)).
Proof.
  intros verify m s H.
  split; [apply extract_too_short; exact H |].
  unfold extractFromRawQuote. rewrite (extract_too_short s H).
  destruct (verify (slice_bytes m s)) as [e |];
    (split; [reflexivity |]); (split; [reflexivity |]); simpl; tauto.
Qed.

Lemma C3_quote_too_short_witness :
  len (mkSlice 0 100 128) < 632
  /\ extractTDReportFromRawQuote (mkSlice 0 100 128)
     = ret (inr (QuoteTooShort 100))
  /\ result (extractFromRawQuote (fun _ => None) (zeros 128) (mkSlice 0 100 128))
     = Exit 1.
Proof.
  assert (H : len (mkSlice 0 100 128) < 632) by (simpl; lia).
  split; [exact H |].
  destruct (C3_quote_too_short (fun _ => None) (zeros 128) (mkSlice 0 100 128) H)
    as (E & R & _).
  split; [exact E | exact R].
Defined.

(** ** Structs in memory *)

Lemma load_app_mid (pre x post : bytes) :
  load (pre ++ x ++ post) (length pre) (length x) = Some x.
Proof.
  rewrite load_inside by (rewrite !length_app; lia).
  rewrite skipn_app, skipn_all, Nat.sub_diag. simpl.
  rewrite firstn_app, firstn_all, Nat.sub_diag. simpl.
  now rewrite app_nil_r.
Qed.

Lemma store_app_mid (pre old post bs : bytes) :
  length bs <= length old ->
  store (pre ++ old ++ post) (length pre) bs
  = Some (pre ++ (bs ++ skipn (length bs) old) ++ post).
Proof.
  intros H. unfold store.
  rewrite (proj2 (Nat.leb_le _ _)) by (rewrite !length_app; lia).
  f_equal.
  rewrite firstn_app, firstn_all, Nat.sub_diag. simpl. rewrite app_nil_r.
  f_equal. rewrite <- app_assoc. f_equal.
  rewrite skipn_app, skipn_all2 by lia. simpl.
  replace (length pre + length bs - length pre) with (length bs) by lia.
  rewrite skipn_app.
  replace (length bs - length old) with 0 by lia. reflexivity.
Qed.

Lemma skipn_repeat_zeros (k n : nat) : skipn k (zeros n) = zeros (n - k).
Proof.
  unfold zeros. revert k. induction n as [| n IH]; intros [| k]; simpl; auto.
Qed.

(** A copy into a zeroed array keeps the first [n] bytes of the source and
    leaves zeros behind a shorter source. *)
Lemma go_copy_zeros (n : nat) (src : bytes) :
  go_copy (zeros n) src = firstn n src ++ zeros (n - length src).
Proof.
  unfold go_copy. rewrite skipn_repeat_zeros.
  unfold zeros at 1. now rewrite repeat_length.
Qed.

Lemma go_copy_length (dst src : bytes) :
  length (go_copy dst src) = length dst.
Proof.
  unfold go_copy. rewrite length_app, length_firstn, length_skipn. lia.
Qed.

(** What a store of the first bytes of [src] leaves in a field. *)
Lemma go_copy_store (old src : bytes) :
  firstn (length old) src ++ skipn (length (firstn (length old) src)) old
  = go_copy old src.
Proof.
  unfold go_copy. f_equal. rewrite length_firstn.
  destruct (Nat.le_gt_cases (length src) (length old)) as [H | H].
  - now rewrite Nat.min_r by lia.
  - rewrite Nat.min_l by lia. now rewrite !skipn_all2 by lia.
Qed.

Lemma sized_tail (g : Field) (k : nat) (t : list (Field * nat))
    (v : Field -> bytes) :
  sized ((g, k) :: t) v -> length (v g) = k /\ sized t v.
Proof.
  intros H. split; [apply H; now left |].
  intros f n Hf. apply H. now right.
Qed.

Lemma image_upd_other (t : list (Field * nat)) (v : Field -> bytes)
    (f : Field) (x : bytes) :
  ~ In f (map fst t) -> image t (upd v f x) = image t v.
Proof.
  induction t as [| [g k] t IH]; simpl; intros H; [reflexivity |].
  unfold image in *. simpl. rewrite IH by tauto. f_equal.
  unfold upd. destruct (Field_eqb f g) eqn:E; [| reflexivity].
  apply Field_eqb_eq in E. subst g. tauto.
Qed.

Lemma image_ext (fs : list (Field * nat)) (v w : Field -> bytes) :
  (forall f, v f = w f) -> image fs v = image fs w.
Proof.
  intros H. unfold image. apply flat_map_ext. intros a. apply H.
Qed.

Section StructView.
Variable v : Field -> bytes.

(** A field of a struct in memory loads as its value. *)
Lemma load_image (fs : list (Field * nat)) :
  NoDup (map fst fs) -> sized fs v ->
  forall (pre post : bytes) (f : Field) (n : nat),
    In (f, n) fs ->
    load (pre ++ image fs v ++ post) (length pre + offset_in fs f) n
    = Some (v f).
Proof.
  induction fs as [| [g k] t IH]; intros Hnd Hs pre post f n Hin;
    [destruct Hin |].
  apply sized_tail in Hs. destruct Hs as [Hg Ht].
  simpl in Hnd. apply NoDup_cons_iff in Hnd. destruct Hnd as [Hnotin Hnd'].
  unfold image. simpl flat_map. fold (image t v). simpl offset_in.
  destruct Hin as [E | Hin].
  - injection E as -> ->. rewrite Field_eqb_refl, Nat.add_0_r.
    rewrite <- app_assoc. rewrite <- Hg. apply load_app_mid.
  - assert (Hne : Field_eqb g f = false).
    { destruct (Field_eqb g f) eqn:E; [| reflexivity].
      apply Field_eqb_eq in E. subst g. exfalso. apply Hnotin.
      change f with (fst (f, n)). now apply in_map. }
    rewrite Hne. rewrite <- app_assoc.
    rewrite (app_assoc pre (v g)).
    replace (length pre + (k + offset_in t f))
      with (length (pre ++ v g) + offset_in t f)
      by (rewrite length_app; simpl in Hg; lia).
    now apply IH.
Qed.

(** A store into a field of a struct in memory changes that field. *)
Lemma store_image (fs : list (Field * nat)) :
  NoDup (map fst fs) -> sized fs v ->
  forall (pre post : bytes) (f : Field) (n : nat) (bs : bytes),
    In (f, n) fs -> length bs <= n ->
    store (pre ++ image fs v ++ post) (length pre + offset_in fs f) bs
    = Some (pre ++ image fs (upd v f (bs ++ skipn (length bs) (v f))) ++ post).
Proof.
  induction fs as [| [g k] t IH]; intros Hnd Hs pre post f n bs Hin Hlen;
    [destruct Hin |].
  apply sized_tail in Hs. destruct Hs as [Hg Ht].
  simpl in Hnd. apply NoDup_cons_iff in Hnd. destruct Hnd as [Hnotin Hnd'].
  unfold image. simpl flat_map. fold (image t v).
  fold (image t (upd v f (bs ++ skipn (length bs) (v f)))).
  simpl offset_in. simpl fst.
  destruct Hin as [E | Hin].
  - injection E as -> ->. rewrite Field_eqb_refl, Nat.add_0_r.
    rewrite image_upd_other by assumption.
    unfold upd at 1. rewrite Field_eqb_refl.
    rewrite <- !app_assoc. rewrite store_app_mid by lia.
    now rewrite <- !app_assoc.
  - assert (Hne : Field_eqb g f = false).
    { destruct (Field_eqb g f) eqn:E; [| reflexivity].
      apply Field_eqb_eq in E. subst g. exfalso. apply Hnotin.
      change f with (fst (f, n)). now apply in_map. }
    assert (Hne' : Field_eqb f g = false).
    { destruct (Field_eqb f g) eqn:E; [| reflexivity].
      apply Field_eqb_eq in E. subst g. now rewrite Field_eqb_refl in Hne. }
    rewrite Hne. unfold upd at 1. rewrite Hne'.
    rewrite <- !app_assoc.
    rewrite (app_assoc pre (v g)).
    replace (length pre + (k + offset_in t f))
      with (length (pre ++ v g) + offset_in t f)
      by (rewrite length_app; simpl in Hg; lia).
    rewrite (IH Hnd' Ht (pre ++ v g) post f n bs Hin Hlen).
    now rewrite <- !app_assoc.
Qed.
End StructView.

Lemma TDReport_NoDup : NoDup (map fst TDReport).
Proof.
  simpl. repeat (constructor; [simpl; intuition discriminate |]). constructor.
Qed.

Lemma declared_size (f : Field) (n : nat) :
  In (f, n) TDReport -> n = field_size f.
Proof.
  intros Hf. simpl in Hf.
  repeat (destruct Hf as [Hf | Hf]; [injection Hf as <- <-; reflexivity |]).
  destruct Hf.
Qed.

Lemma sized_upd (v : Field -> bytes) (f : Field) (x : bytes) :
  sized TDReport v -> length x = field_size f -> sized TDReport (upd v f x).
Proof.
  intros Hs Hx g n Hg. unfold upd.
  destruct (Field_eqb f g) eqn:E; [| now apply Hs].
  apply Field_eqb_eq in E. subst g. rewrite Hx.
  symmetry. now apply declared_size.
Qed.

Lemma sized_zero_fields : sized TDReport zero_fields.
Proof.
  intros f n Hf. unfold zero_fields, zeros. rewrite repeat_length.
  symmetry. now apply declared_size.
Qed.

Lemma sized_field (v : Field -> bytes) (f : Field) :
  sized TDReport v -> length (v f) = field_size f.
Proof. intros Hs. apply Hs, field_declared. Qed.

(** [p.f] on a struct of field values [v] placed at the end of [m]. *)
Lemma field_load_image (m : Mem) (v : Field -> bytes) (f : Field) :
  sized TDReport v ->
  load (m ++ image TDReport v) (length m + field_offset f) (field_size f)
  = Some (v f).
Proof.
  intros Hs.
  pose proof (load_image v TDReport TDReport_NoDup Hs m [] f (field_size f)
                (field_declared f)) as H.
  now rewrite app_nil_r in H.
Qed.

Lemma field_copy_image (m : Mem) (v : Field -> bytes) (f : Field)
    (src : bytes) :
  sized TDReport v ->
  field_copy (m ++ image TDReport v) (length m) f src
  = ret (m ++ image TDReport (upd v f (go_copy (v f) src))).
Proof.
  intros Hs. unfold field_copy.
  pose proof (store_image v TDReport TDReport_NoDup Hs m [] f (field_size f)
                (firstn (field_size f) src) (field_declared f)) as H.
  rewrite !app_nil_r in H. fold (field_offset f) in H.
  rewrite H by (rewrite length_firstn; lia).
  rewrite <- (sized_field v f Hs), go_copy_store. reflexivity.
Qed.

(** ** Runs that end normally *)

Lemma completes_bind {A B} (c : M A) (k : A -> M B) :
  completes c -> (forall a, completes (k a)) -> completes (bind c k).
Proof.
  intros [a Ha] Hk. unfold completes. rewrite result_bind, Ha. apply Hk.
Qed.

Lemma completes_ret {A} (a : A) : completes (ret a).
Proof. now exists a. Qed.

Lemma completes_emit (e : event) : completes (emit e).
Proof. now exists tt. Qed.

Lemma completes_unit (c : M unit) : completes c -> result c = Done tt.
Proof. intros [[] H]. exact H. Qed.

Ltac completes :=
  repeat first
    [ apply completes_ret | apply completes_emit
    | apply completes_bind; [| intros ?]
    | match goal with
      | |- completes (match ?x with _ => _ end) => destruct x
      end ].

Section InspectorFacts.

Variable abi_HeaderToAbiBytes : Header -> bytes + string.
Variable abi_TdQuoteBodyToAbiBytes : TDQuoteBody -> bytes + string.
Variable sha256_Sum256 : bytes -> bytes.
Variable ecdsa_Verify : Z -> Z -> bytes -> Z -> Z -> bool.


(** Validation of the structure, the signature check included, never
    ends the run. *)
Lemma validateQuoteStructure_completes (quote : QuoteV4) :
  result (validateQuoteStructure abi_HeaderToAbiBytes
            abi_TdQuoteBodyToAbiBytes sha256_Sum256 ecdsa_Verify quote)
  = Done tt.
Proof.
  apply completes_unit.
  unfold validateQuoteStructure, validateECDSASignature,
    createSignedPayload, call, println, print.
  completes.
Qed.

Lemma index_lt (l : list bytes) (i : nat) :
  i < length l -> index l i = ret (nth i l []).
Proof.
  intros H. unfold index.
  destruct (nth_error l i) as [x |] eqn:E.
  - now rewrite (nth_error_nth l i [] E).
  - apply nth_error_None in E. lia.
Qed.

Lemma sized_copy (v : Field -> bytes) (f : Field) (src : bytes) :
  sized TDReport v -> sized TDReport (upd v f (go_copy (v f) src)).
Proof.
  intros Hs. apply sized_upd; [exact Hs |].
  rewrite go_copy_length. now apply sized_field.
Qed.

Lemma sized_body_fields (b : TDQuoteBody) : sized TDReport (body_fields b).
Proof.
  intros f n Hf. rewrite (declared_size f n Hf).
  unfold body_fields.
  destruct f; try (unfold zeros; apply repeat_length);
    try (destruct (4 <=? length (GetRtmrs b)));
    try apply go_copy_length; reflexivity.
Qed.

(** The struct [extractFromQuoteV4] fills is allocated at the end of
    the memory and holds [body_fields]; filling it cannot fail. *)
Lemma fill_TDReport_spec (m : Mem) (b : TDQuoteBody) :
  fill_TDReport m b = ret (m ++ image TDReport (body_fields b), length m).
Proof.
  unfold fill_TDReport, new_TDReport.
  change (zeros sizeof_TDReport) with (image TDReport zero_fields).
  pose proof sized_zero_fields as Hz.
  destruct (4 <=? length (GetRtmrs b)) eqn:E.
  - apply Nat.leb_le in E.
    rewrite !index_lt by lia.
    repeat (rewrite ?bind_ret_l;
            rewrite field_copy_image by (repeat apply sized_copy; exact Hz)).
    rewrite !bind_ret_l.
    apply Nat.leb_le in E.
    erewrite image_ext; [reflexivity |].
    intros f. unfold body_fields. rewrite E.
    destruct f; reflexivity.
  - repeat (rewrite ?bind_ret_l;
            rewrite field_copy_image by (repeat apply sized_copy; exact Hz)).
    rewrite !bind_ret_l.
    erewrite image_ext; [reflexivity |].
    intros f. unfold body_fields. rewrite E.
    destruct f; reflexivity.
Qed.

(** With a TD quote body, [extractFromQuoteV4] is the validation
    followed by the full report of the body's fields. *)
Lemma extractFromQuoteV4_body (m : Mem) (quote : QuoteV4) (b : TDQuoteBody) :
  GetTdQuoteBody quote = Some b ->
  extractFromQuoteV4 abi_HeaderToAbiBytes abi_TdQuoteBodyToAbiBytes
    sha256_Sum256 ecdsa_Verify m quote =
  (trace (validateQuoteStructure abi_HeaderToAbiBytes
            abi_TdQuoteBodyToAbiBytes sha256_Sum256 ecdsa_Verify quote)
   ++ report_events (length m) (body_fields b),
   Done tt).
Proof.
  intros Hb. unfold extractFromQuoteV4. rewrite Hb.
  rewrite fill_TDReport_spec, bind_ret_l. cbn [fst snd].
  rewrite (printRTMRValues_loaded _ _ (body_fields b)).
  - rewrite (M_eta (validateQuoteStructure _ _ _ _ quote)),
      validateQuoteStructure_completes.
    now rewrite bind_done.
  - intros f _. apply field_load_image, sized_body_fields.
Qed.

(** Without one, the run ends in [log.Fatal] after the validation. *)
Lemma extractFromQuoteV4_no_body (m : Mem) (quote : QuoteV4) :
  GetTdQuoteBody quote = None ->
  extractFromQuoteV4 abi_HeaderToAbiBytes abi_TdQuoteBodyToAbiBytes
    sha256_Sum256 ecdsa_Verify m quote =
  (trace (validateQuoteStructure abi_HeaderToAbiBytes
            abi_TdQuoteBodyToAbiBytes sha256_Sum256 ecdsa_Verify quote)
   ++ [LogFatal "No TD Quote Body found in quote"],
   Exit 1).
Proof.
  intros Hb. unfold extractFromQuoteV4. rewrite Hb.
  rewrite (M_eta (validateQuoteStructure _ _ _ _ quote)),
    validateQuoteStructure_completes.
  now rewrite bind_done.
Qed.

End InspectorFacts.

Section InspectorEvents.

Variable abi_HeaderToAbiBytes : Header -> bytes + string.
Variable abi_TdQuoteBodyToAbiBytes : TDQuoteBody -> bytes + string.
Variable sha256_Sum256 : bytes -> bytes.
Variable ecdsa_Verify : Z -> Z -> bytes -> Z -> Z -> bool.

Lemma validateQuoteStructure_no_failure (quote : QuoteV4) :
  Forall (fun e => is_failure e = false)
    (trace (validateQuoteStructure abi_HeaderToAbiBytes
              abi_TdQuoteBodyToAbiBytes sha256_Sum256 ecdsa_Verify quote)).
Proof.
  unfold validateQuoteStructure, validateECDSASignature,
    createSignedPayload, call, println, print.
  all_events; reflexivity.
Qed.

Lemma validateQuoteStructure_no_later_strategy (quote : QuoteV4) :
  Forall (fun e => later_strategy e = false)
    (trace (validateQuoteStructure abi_HeaderToAbiBytes
              abi_TdQuoteBodyToAbiBytes sha256_Sum256 ecdsa_Verify quote)).
Proof.
  unfold validateQuoteStructure, validateECDSASignature,
    createSignedPayload, call, println, print.
  all_events; reflexivity.
Qed.

Lemma validateQuoteStructure_no_reads (quote : QuoteV4) :
  reads (trace (validateQuoteStructure abi_HeaderToAbiBytes
                  abi_TdQuoteBodyToAbiBytes sha256_Sum256 ecdsa_Verify quote))
  = [].
Proof.
  assert (H : Forall (fun e => match e with MemRead _ _ => False | _ => True end)
                (trace (validateQuoteStructure abi_HeaderToAbiBytes
                   abi_TdQuoteBodyToAbiBytes sha256_Sum256 ecdsa_Verify quote))).
  { unfold validateQuoteStructure, validateECDSASignature,
      createSignedPayload, call, println, print.
    all_events; exact I. }
  induction H as [| e t He _ IH]; [reflexivity |].
  destruct e; simpl; auto. destruct He.
Qed.

Lemma printRTMRValues_no_later_strategy (m : Mem) (p : nat) :
  Forall (fun e => later_strategy e = false) (trace (printRTMRValues m p)).
Proof.
  unfold printRTMRValues, field_load, println, print.
  all_events; try reflexivity;
    unfold later_strategy, raw_strategy, rtmr_line; destruct (allZeros _);
    reflexivity.
Qed.

Lemma extractFromQuoteV4_no_later_strategy (m : Mem) (quote : QuoteV4) :
  Forall (fun e => later_strategy e = false)
    (trace (extractFromQuoteV4 abi_HeaderToAbiBytes
              abi_TdQuoteBodyToAbiBytes sha256_Sum256 ecdsa_Verify m quote)).
Proof.
  unfold extractFromQuoteV4.
  apply all_bind; [apply validateQuoteStructure_no_later_strategy | intros _].
  destruct (GetTdQuoteBody quote) as [b |].
  - rewrite fill_TDReport_spec, bind_ret_l.
    apply printRTMRValues_no_later_strategy.
  - repeat constructor.
Qed.

Lemma report_events_no_failure (p : nat) (v : Field -> bytes) :
  Forall (fun e => is_failure e = false) (report_events p v).
Proof. repeat constructor. Qed.

End InspectorEvents.

(** ** The structured path *)

Lemma field_load_filled (m : Mem) (b : TDQuoteBody) (f : Field) :
  field_load (m ++ image TDReport (body_fields b)) (length m) f
  = ([MemRead (length m + field_offset f) (field_size f)],
     Done (body_fields b f)).
Proof.
  unfold field_load.
  now rewrite field_load_image by apply sized_body_fields.
Qed.

(** C9: with at least four entries in the body's register list the four
    RTMR fields of the report are the copies of entries 0..3 in that order;
    with fewer, all four stay at the zero value and no entry is copied. *)
Theorem C9_registers_from_list :
  forall (m : Mem) (body : TDQuoteBody),
    let rtmrs := GetRtmrs body in
    let tdReport := length m in
    exists m',
      fill_TDReport m body = ret (m', tdReport)
      /\ (4 <= length rtmrs ->
          result (field_load m' tdReport Rtmr0)
            = Done (go_copy (zeros 48) (nth 0 rtmrs []))
          /\ result (field_load m' tdReport Rtmr1)
            = Done (go_copy (zeros 48) (nth 1 rtmrs []))
          /\ result (field_load m' tdReport Rtmr2)
            = Done (go_copy (zeros 48) (nth 2 rtmrs []))
          /\ result (field_load m' tdReport Rtmr3)
            = Done (go_copy (zeros 48) (nth 3 rtmrs [])))
      /\ (length rtmrs < 4 ->
          result (field_load m' tdReport Rtmr0) = Done (zeros 48)
          /\ result (field_load m' tdReport Rtmr1) = Done (zeros 48)
          /\ result (field_load m' tdReport Rtmr2) = Done (zeros 48)
          /\ result (field_load m' tdReport Rtmr3) = Done (zeros 48)).
Proof.
  intros m body rtmrs p.
  exists (m ++ image TDReport (body_fields body)).
  split; [apply fill_TDReport_spec |].
  rewrite !field_load_filled. unfold result; cbn [snd].
  unfold body_fields. fold rtmrs.
  split; intros H.
  - rewrite (proj2 (Nat.leb_le _ _) H). repeat split.
  - rewrite (proj2 (Nat.leb_gt _ _) H). repeat split.
Qed.

Lemma C9_registers_from_list_witness :
  exists m',
    fill_TDReport [] sample_body = ret (m', 0)
    /\ result (field_load m' 0 Rtmr0) = Done (repeat x0a 48)
    /\ result (field_load m' 0 Rtmr1) = Done (x0b :: zeros 47)
    /\ result (field_load m' 0 Rtmr2) = Done (repeat x0c 48)
    /\ result (field_load m' 0 Rtmr3) = Done last_byte_set.
Proof.
  destruct (C9_registers_from_list [] sample_body) as (m' & E & H4 & _).
  exists m'. split; [exact E |].
  apply H4. simpl. lia.
Defined.

(** C10: every field the structured path copies ends up as exactly 48
    bytes: the first 48 bytes of its source, followed by zeros when the
    source is shorter.  Filling the struct emits nothing and cannot fail,
    and the run ends normally whatever the lengths are. *)
Theorem C10_copy_pads_and_truncates :
  forall (m : Mem) (body : TDQuoteBody),
    exists m',
      fill_TDReport m body = ret (m', length m)
      /\ (forall f src,
            In (f, src) (copied_fields body) ->
            exists v,
              result (field_load m' (length m) f) = Done v
              /\ length v = 48
              /\ v = firstn 48 src ++ zeros (48 - length src)
              /\ (length src <= 48 ->
                  firstn (length src) v = src
                  /\ skipn (length src) v = zeros (48 - length src))
              /\ (48 <= length src -> v = firstn 48 src))
      /\ (forall encH encB sha ecdsa quote,
            GetTdQuoteBody quote = Some body ->
            result (extractFromQuoteV4 encH encB sha ecdsa m quote) = Done tt
            /\ Forall (fun e => is_failure e = false)
                 (trace (extractFromQuoteV4 encH encB sha ecdsa m quote))).
Proof.
  intros m body.
  exists (m ++ image TDReport (body_fields body)).
  split; [apply fill_TDReport_spec |]. split.
  - intros f src Hin.
    exists (go_copy (zeros 48) src).
    assert (Hv : body_fields body f = go_copy (zeros 48) src).
    { unfold copied_fields in Hin. apply in_app_or in Hin.
      destruct Hin as [Hin | Hin].
      - unfold body_fields.
        destruct (4 <=? length (GetRtmrs body)); [| destruct Hin].
        simpl in Hin.
        destruct Hin as [E | [E | [E | [E | []]]]];
          injection E as <- <-; reflexivity.
      - simpl in Hin.
        destruct Hin as [E | [E | [E | [E | []]]]];
          injection E as <- <-; reflexivity. }
    rewrite field_load_filled, Hv. unfold result; cbn [snd].
    split; [reflexivity |].
    split; [rewrite go_copy_length; apply repeat_length |].
    rewrite go_copy_zeros.
    split; [reflexivity |]. split.
    + intros Hle. rewrite (@firstn_all2 _ 48 src) by lia. split.
      * rewrite firstn_app, Nat.sub_diag, firstn_all. simpl.
        now rewrite app_nil_r.
      * rewrite skipn_app, Nat.sub_diag, skipn_all. reflexivity.
    + intros Hge. replace (48 - length src) with 0 by lia.
      simpl. now rewrite app_nil_r.
  - intros encH encB sha ecdsa quote Hb.
    rewrite (extractFromQuoteV4_body encH encB sha ecdsa m quote body Hb).
    split; [reflexivity |].
    unfold trace; cbn [fst]. apply Forall_app. split.
    + apply validateQuoteStructure_no_failure.
    + apply report_events_no_failure.
Qed.

Lemma C10_copy_pads_and_truncates_witness :
  exists m',
    fill_TDReport [] sample_body = ret (m', 0)
    /\ (exists v, result (field_load m' 0 MrTd) = Done v
                  /\ length v = 48 /\ v = [x01; x02] ++ zeros 46)
    /\ (exists v, result (field_load m' 0 MrConfigId) = Done v
                  /\ length v = 48 /\ v = repeat x03 48).
Proof.
  destruct (C10_copy_pads_and_truncates [] sample_body) as (m' & E & H & _).
  exists m'. split; [exact E |]. split.
  - destruct (H MrTd [x01; x02]) as (v & Hv & Hl & Hc & _).
    + unfold copied_fields. apply in_or_app. right. simpl. tauto.
    + exists v. repeat split; assumption.
  - destruct (H MrConfigId (repeat x03 50)) as (v & Hv & Hl & Hc & _).
    + unfold copied_fields. apply in_or_app. right. simpl. tauto.
    + exists v. repeat split; assumption.
Defined.

Ltac find_in := repeat first [left; reflexivity | right].

(** C7 as stated fails: a decoded quote with a header, a 64-byte signature
    and a 64-byte key on the curve but no TD quote body fails the payload
    reconstruction, and the run then ends in [log.Fatal] with exit code 1
    before any measurement field is read or reported. *)
Lemma C7_bodyless_quote_counterexample :
  let run := extractFromQuoteV4 enc_header_ok enc_body_ok hash_stub
               ecdsa_accepts [] bodyless_quote in
  In (Stdout (cross_mark ++ " Could not create signed payload" ++ nl)%string)
     (trace run)
  /\ result run = Exit 1
  /\ In (LogFatal "No TD Quote Body found in quote") (trace run)
  /\ reads (trace run) = []
  /\ ~ (exists p v, incl (report_events p v) (trace run)).
Proof.
  intros run.
  assert (E : run =
            (trace (validateQuoteStructure enc_header_ok enc_body_ok hash_stub
                      ecdsa_accepts bodyless_quote)
             ++ [LogFatal "No TD Quote Body found in quote"], Exit 1))
    by (apply extractFromQuoteV4_no_body; reflexivity).
  assert (Hr : reads (trace run) = []).
  { rewrite E. unfold trace at 1; cbn [fst].
    now rewrite reads_app, validateQuoteStructure_no_reads. }
  split.
  { rewrite E. unfold trace at 1; cbn [fst]. apply in_or_app. left.
    vm_compute. find_in. }
  split; [rewrite E; reflexivity |].
  split.
  { rewrite E. unfold trace at 1; cbn [fst]. apply in_or_app. right.
    now left. }
  split; [exact Hr |].
  intros (p & v & Hincl).
  assert (Hin : In (MemRead (p + 808) 48) (trace run))
    by (apply Hincl; unfold report_events; do 2 right; now left).
  clear E Hincl. revert Hr Hin. generalize (trace run) as t.
  induction t as [| e t IH]; intros Hr Hin; [destruct Hin |].
  destruct Hin as [-> | Hin]; [discriminate Hr |].
  destruct e; simpl in Hr; try discriminate Hr; auto.
Qed.

(** C7 (amended): for every structurally decoded quote that has a TD quote
    body, whatever the encoders, the hash and the ECDSA check return, the
    validation sub-step ends normally and the run is that sub-step followed
    by the complete report of the RTMRs, MrTd, MrConfigId, MrOwner and
    MrOwnerConfig copied from the body; it ends normally, with no fatal log
    entry. *)
Theorem C7_verification_not_fatal :
  forall (encH : Header -> bytes + string)
         (encB : TDQuoteBody -> bytes + string)
         (sha : bytes -> bytes) (ecdsa : Z -> Z -> bytes -> Z -> Z -> bool)
         (m : Mem) (quote : QuoteV4) (body : TDQuoteBody),
    GetTdQuoteBody quote = Some body ->
    let validation := validateQuoteStructure encH encB sha ecdsa quote in
    let run := extractFromQuoteV4 encH encB sha ecdsa m quote in
    result validation = Done tt
    /\ run = (trace validation ++ report_events (length m) (body_fields body),
              Done tt)
    /\ Forall (fun e => is_failure e = false) (trace run).
Proof.
  intros encH encB sha ecdsa m quote body Hb validation run.
  assert (E : run = (trace validation
                     ++ report_events (length m) (body_fields body), Done tt))
    by (apply extractFromQuoteV4_body; exact Hb).
  split; [apply validateQuoteStructure_completes |].
  split; [exact E |].
  rewrite E. unfold trace at 1; cbn [fst]. apply Forall_app. split.
  - apply validateQuoteStructure_no_failure.
  - apply report_events_no_failure.
Qed.

Lemma C7_verification_not_fatal_witness :
  GetTdQuoteBody sample_quote = Some sample_body
  /\ let run := extractFromQuoteV4 enc_header_ok enc_body_ok hash_stub
                  ecdsa_rejects [] sample_quote in
     In (Stdout (cross_mark ++ " Signature verification FAILED" ++ nl)%string)
        (trace run)
     /\ In (Stdout (hex_line 3 last_byte_set)) (trace run)
     /\ result run = Done tt.
Proof.
  split; [reflexivity |].
  destruct (C7_verification_not_fatal enc_header_ok enc_body_ok hash_stub
              ecdsa_rejects [] sample_quote sample_body eq_refl)
    as (_ & E & _).
  cbv zeta. rewrite E. unfold trace, result; cbn [fst snd].
  split; [apply in_or_app; left; vm_compute; find_in |].
  split; [apply in_or_app; right; vm_compute; find_in | reflexivity].
Defined.

(** ** The signature verifier *)

(** [SetBytes] reads its argument as a big-endian number: the first byte
    is the most significant one. *)
Lemma SetBytes_from (l : bytes) (acc : Z) :
  fold_left (fun a b => (a * 256 + Z.of_N (Byte.to_N b))%Z) l acc
  = (acc * 256 ^ Z.of_nat (length l) + SetBytes l)%Z.
Proof.
  unfold SetBytes. revert acc.
  induction l as [| b l IH]; intros acc.
  - simpl. lia.
  - cbn [fold_left length]. rewrite IH, (IH (0 * 256 + _)%Z).
    rewrite Nat2Z.inj_succ, Z.pow_succ_r by lia. lia.
Qed.

Lemma SetBytes_cons (b : byte) (l : bytes) :
  SetBytes (b :: l)
  = (Z.of_N (Byte.to_N b) * 256 ^ Z.of_nat (length l) + SetBytes l)%Z.
Proof. unfold SetBytes at 1. cbn [fold_left]. now rewrite SetBytes_from. Qed.

(** [SetBytes] is the big-endian reading. *)
Lemma SetBytes_big_endian (l : bytes) : SetBytes l = big_endian l.
Proof.
  induction l as [| b l IH]; [reflexivity |].
  rewrite SetBytes_cons, IH. reflexivity.
Qed.

Section Verifier.

Variable encH : Header -> bytes + string.
Variable encB : TDQuoteBody -> bytes + string.
Variable sha : bytes -> bytes.
Variable ecdsa : Z -> Z -> bytes -> Z -> Z -> bool.

Variables (quote : QuoteV4) (signature publicKey : bytes).
Hypothesis Hsig : length signature = 64.
Hypothesis Hkey : length publicKey = 64.

Lemma createSignedPayload_result :
  result (createSignedPayload encH encB quote)
  = Done (signed_payload encH encB quote).
Proof.
  unfold createSignedPayload, signed_payload.
  destruct (GetHeader quote) as [h |]; [| reflexivity].
  destruct (GetTdQuoteBody quote) as [b |]; [| reflexivity].
  unfold call. rewrite !bind_ret_l || idtac.
  destruct (encH h) as [hb | e]; [| reflexivity].
  destruct (encB b) as [bb | e]; reflexivity.
Qed.

Lemma verifier_off_curve :
  P256.IsOnCurve (SetBytes (firstn 32 publicKey))
                 (SetBytes (skipn 32 publicKey)) = false ->
  validateECDSASignature encH encB sha ecdsa quote signature publicKey
  = ([ Stdout ((nl ++ "Signature Validation (Offline Check):") ++ nl)%string;
       Stdout ("=====================================" ++ nl)%string;
       Stdout ("Signature R: " ++ hex (firstn 32 signature) ++ nl)%string;
       Stdout ("Signature S: " ++ hex (skipn 32 signature) ++ nl)%string;
       Stdout ("Public Key X: " ++ hex (firstn 32 publicKey) ++ nl)%string;
       Stdout ("Public Key Y: " ++ hex (skipn 32 publicKey) ++ nl)%string;
       Lib (Call_IsOnCurve (SetBytes (firstn 32 publicKey))
                           (SetBytes (skipn 32 publicKey)));
       Stdout ((cross_mark ++ " Public key is not on P-256 curve") ++ nl)%string ],
     Done tt).
Proof.
  intros Hc. unfold validateECDSASignature.
  rewrite Hsig, Hkey, Hc. reflexivity.
Qed.

Lemma verifier_payload :
  P256.IsOnCurve (SetBytes (firstn 32 publicKey))
                 (SetBytes (skipn 32 publicKey)) = true ->
  forall header body headerBytes bodyBytes,
    GetHeader quote = Some header -> GetTdQuoteBody quote = Some body ->
    encH header = inl headerBytes -> encB body = inl bodyBytes ->
    let r := SetBytes (firstn 32 signature) in
    let s := SetBytes (skipn 32 signature) in
    let x := SetBytes (firstn 32 publicKey) in
    let y := SetBytes (skipn 32 publicKey) in
    let payload := headerBytes ++ bodyBytes in
    let run := validateECDSASignature encH encB sha ecdsa quote
                 signature publicKey in
    calls (trace run)
    = [ Call_IsOnCurve x y; Call_abi_HeaderToAbiBytes header;
        Call_abi_TdQuoteBodyToAbiBytes body; Call_sha256_Sum256 payload;
        Call_ecdsa_Verify x y (sha payload) r s ]
    /\ In (Stdout (if ecdsa x y (sha payload) r s
                   then (check_mark ++
                         " Signature verification PASSED - Quote structure is valid!")
                        ++ nl
                   else (cross_mark ++ " Signature verification FAILED") ++ nl)%string)
          (trace run)
    /\ result run = Done tt.
Proof.
  intros Hc header body hb bb Hh Hb Eh Eb. cbv zeta.
  unfold validateECDSASignature, createSignedPayload.
  rewrite Hsig, Hkey, Hc, Hh, Hb, Eh, Eb.
  generalize (SetBytes (firstn 32 signature)) (SetBytes (skipn 32 signature))
    (SetBytes (firstn 32 publicKey)) (SetBytes (skipn 32 publicKey)).
  intros r s x y. cbn.
  destruct (ecdsa x y (sha (hb ++ bb)) r s);
    (split; [reflexivity |]); (split; [cbn; find_in | reflexivity]).
Qed.

Lemma verifier_no_payload :
  P256.IsOnCurve (SetBytes (firstn 32 publicKey))
                 (SetBytes (skipn 32 publicKey)) = true ->
  signed_payload encH encB quote = None ->
  let run := validateECDSASignature encH encB sha ecdsa quote
               signature publicKey in
  existsb is_sha256 (calls (trace run)) = false
  /\ existsb is_ecdsa_Verify (calls (trace run)) = false
  /\ In (Stdout ((cross_mark ++ " Could not create signed payload") ++ nl)%string)
        (trace run)
  /\ result run = Done tt.
Proof.
  intros Hc Hp run.
  unfold run, validateECDSASignature, createSignedPayload.
  unfold signed_payload in Hp.
  rewrite Hsig, Hkey, Hc.
  destruct (GetHeader quote) as [h |];
    [| repeat split; cbn; find_in].
  destruct (GetTdQuoteBody quote) as [b |];
    [| repeat split; cbn; find_in].
  destruct (encH h) as [hb | e];
    [| repeat split; cbn; find_in].
  destruct (encB b) as [bb | e]; [discriminate Hp |].
  repeat split; cbn; find_in.
Qed.

End Verifier.

Lemma validateECDSASignature_completes
    (encH : Header -> bytes + string) (encB : TDQuoteBody -> bytes + string)
    (sha : bytes -> bytes) (ecdsa : Z -> Z -> bytes -> Z -> Z -> bool)
    (quote : QuoteV4) (signature publicKey : bytes) :
  result (validateECDSASignature encH encB sha ecdsa quote signature publicKey)
  = Done tt.
Proof.
  apply completes_unit.
  unfold validateECDSASignature, createSignedPayload, call, println, print.
  completes.
Qed.

(** C5 as stated fails: for a quote with a 64-byte signature and a 64-byte
    key on the curve but no TD quote body, the verifier checks the curve
    and stops; no payload is built, no SHA-256 is computed and ECDSA is not
    run. *)
Lemma C5_bodyless_quote_counterexample :
  length sample_signature = 64 /\ length sample_key = 64
  /\ P256.IsOnCurve (SetBytes (firstn 32 sample_key))
                    (SetBytes (skipn 32 sample_key)) = true
  /\ calls (trace (validateECDSASignature enc_header_ok enc_body_ok hash_stub
                     ecdsa_accepts bodyless_quote sample_signature sample_key))
     = [Call_IsOnCurve P256.Gx P256.Gy].
Proof. repeat split; vm_compute; reflexivity. Qed.

(** C5 (amended): with a 64-byte signature and a 64-byte key the verifier
    takes r and s from the two halves of the signature and x and y from the
    two halves of the key, all big-endian, and checks the curve.  Off the
    curve it reports that and makes no further call.  On the curve, when the
    quote has a header and a body and both ABI encodings succeed, it encodes
    the header, encodes the body, hashes their concatenation with SHA-256
    and runs ECDSA on (r, s), that hash and (x, y), in this order, and
    prints the verdict; when the header or the body is missing or an
    encoding fails, it reports that the payload could not be created and
    neither hashes nor runs ECDSA.  The verifier always returns normally. *)
Theorem C5_signature_steps :
  forall (encH : Header -> bytes + string)
         (encB : TDQuoteBody -> bytes + string)
         (sha : bytes -> bytes) (ecdsa : Z -> Z -> bytes -> Z -> Z -> bool)
         (quote : QuoteV4) (signature publicKey : bytes),
    length signature = 64 -> length publicKey = 64 ->
    let r := SetBytes (firstn 32 signature) in
    let s := SetBytes (skipn 32 signature) in
    let x := SetBytes (firstn 32 publicKey) in
    let y := SetBytes (skipn 32 publicKey) in
    let run := validateECDSASignature encH encB sha ecdsa quote
                 signature publicKey in
    result run = Done tt
    /\ (r = big_endian (firstn 32 signature)
        /\ s = big_endian (skipn 32 signature)
        /\ x = big_endian (firstn 32 publicKey)
        /\ y = big_endian (skipn 32 publicKey))
    /\ (P256.IsOnCurve x y = false ->
        calls (trace run) = [Call_IsOnCurve x y]
        /\ In (Stdout ((cross_mark ++ " Public key is not on P-256 curve")
                       ++ nl)%string) (trace run))
    /\ (P256.IsOnCurve x y = true ->
        forall header body headerBytes bodyBytes,
          GetHeader quote = Some header -> GetTdQuoteBody quote = Some body ->
          encH header = inl headerBytes -> encB body = inl bodyBytes ->
          let payload := headerBytes ++ bodyBytes in
          calls (trace run)
          = [ Call_IsOnCurve x y; Call_abi_HeaderToAbiBytes header;
              Call_abi_TdQuoteBodyToAbiBytes body; Call_sha256_Sum256 payload;
              Call_ecdsa_Verify x y (sha payload) r s ]
          /\ In (Stdout (if ecdsa x y (sha payload) r s
                         then (check_mark ++
                           " Signature verification PASSED - Quote structure is valid!")
                              ++ nl
                         else (cross_mark ++ " Signature verification FAILED")
                              ++ nl)%string)
                (trace run))
    /\ (P256.IsOnCurve x y = true ->
        (GetHeader quote = None \/ GetTdQuoteBody quote = None
         \/ (exists header e, GetHeader quote = Some header
                              /\ encH header = inr e)
         \/ (exists body e, GetTdQuoteBody quote = Some body
                            /\ encB body = inr e)) ->
        existsb is_sha256 (calls (trace run)) = false
        /\ existsb is_ecdsa_Verify (calls (trace run)) = false
        /\ In (Stdout ((cross_mark ++ " Could not create signed payload")
                       ++ nl)%string) (trace run)).
Proof.
  intros encH encB sha ecdsa quote signature publicKey Hsig Hkey r s x y run.
  split; [apply validateECDSASignature_completes |].
  split; [repeat split; apply SetBytes_big_endian |].
  split.
  { intros Hc. unfold run.
    rewrite (verifier_off_curve encH encB sha ecdsa quote signature publicKey
               Hsig Hkey Hc).
    split; [reflexivity |]. unfold trace; cbn [fst]. find_in. }
  split.
  { intros Hc header body hb bb Hh Hb Eh Eb payload.
    destruct (verifier_payload encH encB sha ecdsa quote signature publicKey
                Hsig Hkey Hc header body hb bb Hh Hb Eh Eb) as (Hcalls & Hv & _).
    split; [exact Hcalls | exact Hv]. }
  intros Hc Hno.
  assert (Hp : signed_payload encH encB quote = None).
  { unfold signed_payload.
    destruct Hno as [-> | [Hb | [(h & e & -> & Eh) | (b & e & Hb & Eb)]]].
    - reflexivity.
    - rewrite Hb. now destruct (GetHeader quote).
    - destruct (GetTdQuoteBody quote); [| reflexivity]. now rewrite Eh.
    - rewrite Hb, Eb. destruct (GetHeader quote) as [h |]; [| reflexivity].
      now destruct (encH h). }
  destruct (verifier_no_payload encH encB sha ecdsa quote signature publicKey
              Hsig Hkey Hc Hp) as (H1 & H2 & H3 & _).
  repeat split; assumption.
Qed.

Lemma C5_signature_steps_witness :
  length sample_signature = 64 /\ length sample_key = 64
  /\ length off_curve_key = 64
  /\ calls (trace (validateECDSASignature enc_header_ok enc_body_ok hash_stub
                     ecdsa_accepts sample_quote sample_signature sample_key))
     = [ Call_IsOnCurve P256.Gx P256.Gy;
         Call_abi_HeaderToAbiBytes sample_header;
         Call_abi_TdQuoteBodyToAbiBytes sample_body;
         Call_sha256_Sum256 [x01; x02; x03];
         Call_ecdsa_Verify P256.Gx P256.Gy (hash_stub [x01; x02; x03]) 1 2 ]
  /\ calls (trace (validateECDSASignature enc_header_ok enc_body_ok hash_stub
                     ecdsa_accepts sample_quote sample_signature off_curve_key))
     = [ Call_IsOnCurve 1 1 ]
  /\ existsb is_ecdsa_Verify
       (calls (trace (validateECDSASignature enc_header_ok enc_body_fails
                        hash_stub ecdsa_accepts sample_quote sample_signature
                        sample_key)))
     = false.
Proof.
  assert (Hs : length sample_signature = 64) by reflexivity.
  assert (Hk : length sample_key = 64) by reflexivity.
  assert (Ho : length off_curve_key = 64) by reflexivity.
  split; [exact Hs |]. split; [exact Hk |]. split; [exact Ho |].
  split; [| split].
  - destruct (C5_signature_steps enc_header_ok enc_body_ok hash_stub
                ecdsa_accepts sample_quote sample_signature sample_key Hs Hk)
      as (_ & _ & _ & Hon & _).
    destruct (Hon ltac:(vm_compute; reflexivity) sample_header sample_body
                [x01; x02] [x03] eq_refl eq_refl eq_refl eq_refl) as (Hc & _).
    exact Hc.
  - destruct (C5_signature_steps enc_header_ok enc_body_ok hash_stub
                ecdsa_accepts sample_quote sample_signature off_curve_key Hs Ho)
      as (_ & _ & Hoff & _).
    destruct (Hoff ltac:(vm_compute; reflexivity)) as (Hc & _).
    exact Hc.
  - destruct (C5_signature_steps enc_header_ok enc_body_fails hash_stub
                ecdsa_accepts sample_quote sample_signature sample_key Hs Hk)
      as (_ & _ & _ & _ & Hno).
    destruct (Hno ltac:(vm_compute; reflexivity)) as (_ & He & _).
    + right. right. right. exists sample_body, "bad size"%string.
      split; reflexivity.
    + exact He.
Defined.

(** ** The decoder *)

Lemma later_strategy_raw (e : event) :
  later_strategy e = false -> raw_strategy e = false.
Proof. destruct e as [| | | | []]; simpl; congruence. Qed.

(** C6: the decoder tries the protobuf parse first; when it succeeds the
    run is the extraction from that quote and neither the ABI conversion
    nor anything of the raw path occurs in it.  When the protobuf parse
    fails and the ABI conversion yields a QuoteV4, the run is the
    extraction from that one and nothing of the raw path occurs.  When both
    fail, the run goes on, after the two calls and one line of output, as
    the raw extraction on the same bytes. *)
Theorem C6_decoder_priority :
  forall (unmarshal : bytes -> option QuoteV4)
         (toProto : bytes -> option AnyQuote)
         (verify : bytes -> option string)
         (encH : Header -> bytes + string)
         (encB : TDQuoteBody -> bytes + string)
         (sha : bytes -> bytes) (ecdsa : Z -> Z -> bytes -> Z -> Z -> bool)
         (m : Mem) (quoteData : Slice),
    let B := slice_bytes m quoteData in
    let run := decode unmarshal toProto verify encH encB sha ecdsa
                 m quoteData in
    (forall quote,
        unmarshal B = Some quote ->
        run = (Lib (Call_proto_Unmarshal B)
               :: Stdout ("Detected protobuf QuoteV4 format" ++ nl)%string
               :: trace (extractFromQuoteV4 encH encB sha ecdsa m quote),
               result (extractFromQuoteV4 encH encB sha ecdsa m quote))
        /\ Forall (fun e => later_strategy e = false) (trace run))
    /\ (forall q4,
        unmarshal B = None -> toProto B = Some (IsQuoteV4 q4) ->
        run = (Lib (Call_proto_Unmarshal B) :: Lib (Call_abi_QuoteToProto B)
               :: Stdout ("Detected raw QuoteV4 format, converted to protobuf"
                          ++ nl)%string
               :: trace (extractFromQuoteV4 encH encB sha ecdsa m q4),
               result (extractFromQuoteV4 encH encB sha ecdsa m q4))
        /\ Forall (fun e => raw_strategy e = false) (trace run))
    /\ (unmarshal B = None -> toProto B = None ->
        run = (Lib (Call_proto_Unmarshal B) :: Lib (Call_abi_QuoteToProto B)
               :: Stdout raw_banner
               :: trace (extractFromRawQuote verify m quoteData),
               result (extractFromRawQuote verify m quoteData))).
Proof.
  intros unmarshal toProto verify encH encB sha ecdsa m s B run.
  split; [| split].
  - intros quote Hu.
    assert (E : run = (Lib (Call_proto_Unmarshal B)
               :: Stdout ("Detected protobuf QuoteV4 format" ++ nl)%string
               :: trace (extractFromQuoteV4 encH encB sha ecdsa m quote),
               result (extractFromQuoteV4 encH encB sha ecdsa m quote))).
    { unfold run, decode, call. fold B. rewrite Hu.
      unfold println, emit, ret, bind, trace, result.
      destruct (extractFromQuoteV4 encH encB sha ecdsa m quote). reflexivity. }
    split; [exact E |].
    rewrite E. unfold trace at 1; cbn [fst].
    repeat (constructor; [reflexivity |]).
    apply extractFromQuoteV4_no_later_strategy.
  - intros q4 Hu Ha.
    assert (E : run = (Lib (Call_proto_Unmarshal B)
               :: Lib (Call_abi_QuoteToProto B)
               :: Stdout ("Detected raw QuoteV4 format, converted to protobuf"
                          ++ nl)%string
               :: trace (extractFromQuoteV4 encH encB sha ecdsa m q4),
               result (extractFromQuoteV4 encH encB sha ecdsa m q4))).
    { unfold run, decode, call. fold B. rewrite Hu.
      unfold println, emit, ret, bind, trace, result. rewrite Ha.
      destruct (extractFromQuoteV4 encH encB sha ecdsa m q4). reflexivity. }
    split; [exact E |].
    rewrite E. unfold trace at 1; cbn [fst].
    repeat (constructor; [reflexivity |]).
    eapply Forall_impl; [| apply extractFromQuoteV4_no_later_strategy].
    apply later_strategy_raw.
  - intros Hu Ha.
    unfold run, decode, call. fold B. rewrite Hu.
    unfold println, emit, ret, bind, trace, result. rewrite Ha.
    destruct (extractFromRawQuote verify m s). reflexivity.
Qed.

Lemma C6_decoder_priority_witness :
  Forall (fun e => later_strategy e = false)
    (trace (decode (fun _ => Some sample_quote) (fun _ => None) (fun _ => None)
              enc_header_ok enc_body_ok hash_stub ecdsa_accepts
              long_quote_mem long_quote))
  /\ decode (fun _ => None) (fun _ => None) (fun _ => None)
       enc_header_ok enc_body_ok hash_stub ecdsa_accepts
       short_quote_mem (mkSlice 0 100 632)
     = ([ Lib (Call_proto_Unmarshal (zeros 100));
          Lib (Call_abi_QuoteToProto (zeros 100));
          Stdout raw_banner;
          Lib (Call_verify_RawTdxQuote (zeros 100));
          LogFatal "Failed to extract TD Report from raw quote: quote too short: 100 bytes" ],
        Exit 1).
Proof.
  split.
  - destruct (C6_decoder_priority (fun _ => Some sample_quote) (fun _ => None)
                (fun _ => None) enc_header_ok enc_body_ok hash_stub
                ecdsa_accepts long_quote_mem long_quote) as (H & _).
    apply (H sample_quote eq_refl).
  - destruct (C6_decoder_priority (fun _ => None) (fun _ => None)
                (fun _ => None) enc_header_ok enc_body_ok hash_stub
                ecdsa_accepts short_quote_mem (mkSlice 0 100 632))
      as (_ & _ & H).
    rewrite (H eq_refl eq_refl). vm_compute. reflexivity.
Defined.

(** ** The report lines *)

Lemma allZeros_spec (r : bytes) : allZeros r = true <-> r = zeros (length r).
Proof.
  induction r as [| b r IH]; simpl; [tauto |].
  destruct (Byte.eqb b x00) eqn:E.
  - apply Byte.byte_dec_bl in E. subst b. unfold zeros in *. simpl.
    rewrite IH. split; [intros <-; reflexivity | intros [= H]; exact H].
  - split; [discriminate |]. unfold zeros; simpl. intros [= -> _].
    discriminate E.
Qed.

Lemma hex_digit_lower (n : N) : In (hex_digit n) lower_hex_digits.
Proof.
  destruct n as [| q]; [simpl; tauto |].
  do 5 (try destruct q as [q | q |]); simpl; tauto.
Qed.


Lemma hex_length (r : bytes) : String.length (hex r) = 2 * length r.
Proof. induction r as [| b r IH]; simpl; [reflexivity | rewrite IH; lia]. Qed.

(** Reading the digits back gives the bytes: [hex] is the hexadecimal
    encoding, high nibble first. *)
Lemma unhex_hex (r : bytes) : unhex (hex r) = Some r.
Proof.
  induction r as [| b r IH]; [reflexivity |].
  cbn [hex unhex]. rewrite IH.
  destruct b; reflexivity.
Qed.

Lemma append_inj_l (a b c : string) : (a ++ b = a ++ c)%string -> b = c.
Proof.
  induction a as [| ch a IH]; simpl; [auto |].
  intros [= H]. auto.
Qed.

Lemma hex_line_not_marker (i : nat) (r : bytes) :
  hex_line i r <> uninitialized_line i.
Proof.
  unfold hex_line, uninitialized_line. intros H.
  apply append_inj_l, append_inj_l in H.
  destruct r as [| b r]; [discriminate H |].
  simpl in H. injection H as H _.
  pose proof (hex_digit_lower (Byte.to_N b / 16)) as Hd.
  rewrite H in Hd. simpl in Hd.
  repeat (destruct Hd as [Hd | Hd]; [discriminate Hd |]). destruct Hd.
Qed.

Lemma rtmr_line_spec (i : nat) (r : bytes) :
  length r = 48 ->
  (r = zeros 48 -> rtmr_line i r = uninitialized_line i)
  /\ (r <> zeros 48 -> rtmr_line i r = hex_line i r)
  /\ (rtmr_line i r = uninitialized_line i <-> r = zeros 48).
Proof.
  intros Hl. pose proof (allZeros_spec r) as Hz. rewrite Hl in Hz.
  unfold rtmr_line. destruct (allZeros r).
  - assert (r = zeros 48) by now apply Hz. repeat split; tauto.
  - assert (r <> zeros 48) by (intros E; apply Hz in E; discriminate E).
    repeat split; try tauto.
    intros E. exfalso. exact (hex_line_not_marker i r E).
Qed.



(** ** The replay script *)

Module ReplayFacts.
Import Replay.

Lemma memchr_newline (c : byte) : memchr [x0a] c = true <-> c = x0a.
Proof.
  unfold memchr. simpl. rewrite orb_false_r. split.
  - apply Byte.byte_dec_bl.
  - apply Byte.byte_dec_lb.
Qed.

Lemma rstrip_end_le (sep s : bytes) (j : nat) : rstrip_end sep s j <= j.
Proof.
  induction j as [| j IH]; simpl; [lia |].
  destruct (memchr sep (nth j s x00)); lia.
Qed.

(** Everything between the end reached and the start of the scan is one
    of [sep]. *)
Lemma rstrip_end_tail (sep s : bytes) (j i : nat) :
  rstrip_end sep s j <= i < j -> memchr sep (nth i s x00) = true.
Proof.
  induction j as [| j IH]; simpl; [lia |].
  destruct (memchr sep (nth j s x00)) eqn:E; [| lia].
  intros H. destruct (Nat.eq_dec i j) as [-> | Hne]; [exact E |].
  apply IH. lia.
Qed.

(** The scan stops at the start or behind a byte that is none of [sep]. *)
Lemma rstrip_end_stop (sep s : bytes) (j : nat) :
  rstrip_end sep s j = 0
  \/ memchr sep (nth (rstrip_end sep s j - 1) s x00) = false.
Proof.
  induction j as [| j IH]; simpl; [now left |].
  destruct (memchr sep (nth j s x00)) eqn:E; [exact IH |].
  right. simpl. now rewrite Nat.sub_0_r.
Qed.

(** [rstrip] with a newline takes away a run of newlines at the end, and
    what is left does not end in a newline. *)
Lemma rstrip_newline (s : bytes) :
  exists k,
    s = rstrip s [x0a] ++ repeat x0a k
    /\ forall init, rstrip s [x0a] <> init ++ [x0a].
Proof.
  unfold rstrip. set (e := rstrip_end [x0a] s (length s)).
  assert (He : e <= length s) by apply rstrip_end_le.
  assert (Htail : skipn e s = repeat x0a (length s - e)).
  { apply (nth_ext _ _ x00 x0a).
    - now rewrite length_skipn, repeat_length.
    - intros n Hn. rewrite length_skipn in Hn.
      rewrite nth_skipn, nth_repeat.
      apply memchr_newline, (rstrip_end_tail [x0a] s (length s)).
      fold e. lia. }
  exists (length s - e). split.
  - rewrite <- Htail. symmetry. apply firstn_skipn.
  - intros init Hinit.
    pose proof (rstrip_end_stop [x0a] s (length s)) as Hs. fold e in Hs.
    destruct Hs as [H0 | Hstop].
    + rewrite H0 in Hinit. simpl in Hinit. now destruct init.
    + assert (Hlen : length init + 1 = e).
      { rewrite <- (firstn_length_le s He), Hinit, length_app. reflexivity. }
      assert (Hnth : nth (e - 1) s x00 = x0a).
      { rewrite <- (firstn_skipn e s), Hinit.
        rewrite app_nth1 by (rewrite length_app; simpl; lia).
        rewrite app_nth2 by lia.
        replace (e - 1 - length init) with 0 by lia. reflexivity. }
      rewrite Hnth in Hstop. discriminate Hstop.
Qed.

End ReplayFacts.

(** C4: the script's register is the chain started at 48 zero bytes and
    extended with the SHA-384 digest of the kernel, then of the initrd,
    then of the stripped command line, where [extend a m] is the SHA-384 of
    [a] followed by [m]; the kernel and the initrd go in as they are, and
    the stripped command line is the command line without the run of
    newlines at its end: it does not end in a newline itself. *)
Theorem C4_replay_chain :
  forall (hashlib_sha384 : bytes -> bytes) (K I C : bytes),
    let SHA384 := hashlib_sha384 in
    let extend a m := SHA384 (a ++ m) in
    exists stripped k,
      C = stripped ++ repeat x0a k
      /\ (forall init, stripped <> init ++ [x0a])
      /\ Replay.rstrip C [x0a] = stripped
      /\ Replay.replay hashlib_sha384 K I C
         = extend (extend (extend (zeros 48) (SHA384 K)) (SHA384 I))
             (SHA384 stripped)
      /\ Replay.script hashlib_sha384 K I C
         = ("RTMR[1] = "
            ++ hex (extend (extend (extend (zeros 48) (SHA384 K)) (SHA384 I))
                      (SHA384 stripped))
            ++ nl)%string.
Proof.
  intros sha K I C SHA384 extend.
  destruct (ReplayFacts.rstrip_newline C) as (k & HC & Hend).
  exists (Replay.rstrip C [x0a]), k.
  split; [exact HC |]. split; [exact Hend |].
  split; [reflexivity |]. split; reflexivity.
Qed.

(** * Further properties of the inspector and the script *)

(** ** extractTDReportFromRawQuote, all cases *)

(** X1: for a slice as Go has them, with its length within its
    capacity, raw-mode extraction has two outcomes and no other: the
    quote-too-short error below 632 bytes and the address of byte 48 from
    632 bytes on.  The slice expression and the element address cannot
    panic, and the size check behind the slice expression can never fail:
    the invalid-size error is never returned. *)
Theorem X1_extract_outcomes :
  forall quoteData : Slice,
    len quoteData <= cap quoteData ->
    ((len quoteData < 632
      /\ extractTDReportFromRawQuote quoteData
         = ret (inr (QuoteTooShort (len quoteData))))
     \/ (632 <= len quoteData
         /\ extractTDReportFromRawQuote quoteData
            = ret (inl (ptr quoteData + 48))))
    /\ (forall n,
          extractTDReportFromRawQuote quoteData
          <> ret (inr (InvalidTDReportSize n)))
    /\ extractTDReportFromRawQuote quoteData <> panic.
Proof.
  intros s Hc.
  assert (H : (len s < 632
      /\ extractTDReportFromRawQuote s = ret (inr (QuoteTooShort (len s))))
     \/ (632 <= len s
         /\ extractTDReportFromRawQuote s = ret (inl (ptr s + 48)))).
  { destruct (Nat.lt_ge_cases (len s) 632) as [Hlt | Hge].
    - left. split; [exact Hlt | now apply extract_too_short].
    - right. split; [exact Hge | now apply extract_long_enough]. }
  split; [exact H |].
  split; [intros n E | intros E];
    destruct H as [(_ & E') | (_ & E')]; rewrite E' in E; discriminate E.
Qed.

Lemma X1_extract_outcomes_witness :
  len short_quote <= cap short_quote
  /\ extractTDReportFromRawQuote short_quote = ret (inl 48)
  /\ extractTDReportFromRawQuote (mkSlice 0 631 633)
     = ret (inr (QuoteTooShort 631)).
Proof.
  assert (Hc : len short_quote <= cap short_quote) by (simpl; lia).
  split; [exact Hc |].
  destruct (X1_extract_outcomes short_quote Hc) as ([(Hlt & _) | (_ & E)] & _).
  - simpl in Hlt. lia.
  - split; [exact E |].
    assert (Hc' : len (mkSlice 0 631 633) <= cap (mkSlice 0 631 633))
      by (simpl; lia).
    destruct (X1_extract_outcomes (mkSlice 0 631 633) Hc')
      as ([(_ & E') | (Hge & _)] & _).
    + exact E'.
    + simpl in Hge. lia.
Defined.

(** ** main before the decoder *)

Section MainFacts.

Variable unmarshal : bytes -> option QuoteV4.
Variable toProto : bytes -> option AnyQuote.
Variable verify : bytes -> option string.
Variable encH : Header -> bytes + string.
Variable encB : TDQuoteBody -> bytes + string.
Variable sha : bytes -> bytes.
Variable ecdsa : Z -> Z -> bytes -> Z -> Z -> bool.
Variable readFile : string -> (Mem * Slice) + string.

Lemma main_wrong_count (Args : list string) (arg0 : string) :
  length Args <> 2 -> nth_error Args 0 = Some arg0 ->
  main unmarshal toProto verify encH encB sha ecdsa readFile Args
  = ([ Stderr ("Usage: " ++ arg0 ++ " <quote-file>" ++ nl)%string;
       Stderr ("Example: " ++ arg0 ++ " quote.bin" ++ nl)%string ], Exit 1).
Proof.
  intros Hn H0. unfold main.
  rewrite (proj2 (Nat.eqb_neq _ _) Hn). cbn [negb]. rewrite H0. reflexivity.
Qed.

Lemma main_read_error (prog file err : string) :
  readFile file = inr err ->
  main unmarshal toProto verify encH encB sha ecdsa readFile [prog; file]
  = ([ Stdout ("Reading TDX quote from: " ++ file ++ nl)%string;
       Stdout ("==============================" ++ nl)%string;
       LogFatal ("Failed to read quote file: " ++ err)%string ], Exit 1).
Proof.
  intros Hr. unfold main. cbn [length Nat.eqb negb nth_error of_option].
  rewrite bind_ret_l, Hr. reflexivity.
Qed.

(** After a successful read, [main] prints the size and goes on as the
    decoder. *)
Lemma main_read_ok (prog file : string) (m : Mem) (quoteData : Slice) :
  readFile file = inl (m, quoteData) ->
  main unmarshal toProto verify encH encB sha ecdsa readFile [prog; file]
  = ([ Stdout ("Reading TDX quote from: " ++ file ++ nl)%string;
       Stdout ("==============================" ++ nl)%string;
       Stdout ("Quote file size: " ++ dec (len quoteData) ++ " bytes"
               ++ nl ++ nl)%string ]
     ++ trace (decode unmarshal toProto verify encH encB sha ecdsa m quoteData),
     result (decode unmarshal toProto verify encH encB sha ecdsa m quoteData)).
Proof.
  intros Hr. unfold main. cbn [length Nat.eqb negb nth_error of_option].
  rewrite bind_ret_l, Hr.
  unfold print, println, emit, bind.
  destruct (decode unmarshal toProto verify encH encB sha ecdsa m quoteData).
  reflexivity.
Qed.

(** The three ways through the decoder. *)
Lemma decode_structured (m : Mem) (s : Slice) (quote : QuoteV4) :
  unmarshal (slice_bytes m s) = Some quote ->
  decode unmarshal toProto verify encH encB sha ecdsa m s
  = (Lib (Call_proto_Unmarshal (slice_bytes m s))
     :: Stdout ("Detected protobuf QuoteV4 format" ++ nl)%string
     :: trace (extractFromQuoteV4 encH encB sha ecdsa m quote),
     result (extractFromQuoteV4 encH encB sha ecdsa m quote)).
Proof.
  intros Hu. unfold decode, call. rewrite Hu.
  unfold println, emit, ret, bind, trace, result.
  destruct (extractFromQuoteV4 encH encB sha ecdsa m quote). reflexivity.
Qed.

Lemma decode_converted (m : Mem) (s : Slice) (q4 : QuoteV4) :
  unmarshal (slice_bytes m s) = None ->
  toProto (slice_bytes m s) = Some (IsQuoteV4 q4) ->
  decode unmarshal toProto verify encH encB sha ecdsa m s
  = (Lib (Call_proto_Unmarshal (slice_bytes m s))
     :: Lib (Call_abi_QuoteToProto (slice_bytes m s))
     :: Stdout ("Detected raw QuoteV4 format, converted to protobuf" ++ nl)%string
     :: trace (extractFromQuoteV4 encH encB sha ecdsa m q4),
     result (extractFromQuoteV4 encH encB sha ecdsa m q4)).
Proof.
  intros Hu Ha. unfold decode, call. rewrite Hu.
  unfold println, emit, ret, bind, trace, result. rewrite Ha.
  destruct (extractFromQuoteV4 encH encB sha ecdsa m q4). reflexivity.
Qed.

Lemma decode_raw (m : Mem) (s : Slice) :
  unmarshal (slice_bytes m s) = None ->
  (forall q4, toProto (slice_bytes m s) <> Some (IsQuoteV4 q4)) ->
  decode unmarshal toProto verify encH encB sha ecdsa m s
  = (Lib (Call_proto_Unmarshal (slice_bytes m s))
     :: Lib (Call_abi_QuoteToProto (slice_bytes m s))
     :: Stdout raw_banner
     :: trace (extractFromRawQuote verify m s),
     result (extractFromRawQuote verify m s)).
Proof.
  intros Hu Ha. unfold decode, call. rewrite Hu.
  unfold println, emit, ret, bind, trace, result.
  destruct (toProto (slice_bytes m s)) as [[q4 |] |];
    [exfalso; now apply (Ha q4) | |];
    destruct (extractFromRawQuote verify m s); reflexivity.
Qed.

End MainFacts.

(** X2: called with any number of arguments other than one file name,
    the inspector writes its two usage lines, with the program name in
    both, to standard error and exits with code 1; nothing is written to
    standard output, no file is read and no decoder is called.  With an
    empty argument vector it dies on [os.Args[0]]. *)
Theorem X2_main_usage :
  forall (unmarshal : bytes -> option QuoteV4)
         (toProto : bytes -> option AnyQuote)
         (verify : bytes -> option string)
         (encH : Header -> bytes + string)
         (encB : TDQuoteBody -> bytes + string)
         (sha : bytes -> bytes) (ecdsa : Z -> Z -> bytes -> Z -> Z -> bool)
         (readFile : string -> (Mem * Slice) + string)
         (Args : list string),
    length Args <> 2 ->
    let run := main unmarshal toProto verify encH encB sha ecdsa readFile
                 Args in
    (forall arg0 rest,
        Args = arg0 :: rest ->
        run = ([ Stderr ("Usage: " ++ arg0 ++ " <quote-file>" ++ nl)%string;
                 Stderr ("Example: " ++ arg0 ++ " quote.bin" ++ nl)%string ],
               Exit 1))
    /\ (Args = [] -> run = ([], Panic))
    /\ stdout (trace run) = EmptyString
    /\ calls (trace run) = [].
Proof.
  intros unmarshal toProto verify encH encB sha ecdsa readFile Args Hn run.
  destruct Args as [| arg0 rest].
  - assert (E : run = ([], Panic)).
    { unfold run, main. reflexivity. }
    split; [intros ? ? [=] |]. split; [intros _; exact E |].
    rewrite E. split; reflexivity.
  - assert (E : run =
        ([ Stderr ("Usage: " ++ arg0 ++ " <quote-file>" ++ nl)%string;
           Stderr ("Example: " ++ arg0 ++ " quote.bin" ++ nl)%string ], Exit 1))
      by (apply main_wrong_count; [exact Hn | reflexivity]).
    split; [intros a r [= <- <-]; exact E |].
    split; [intros [=] |].
    rewrite E. split; reflexivity.
Qed.

Lemma X2_main_usage_witness :
  length ["inspector"%string] <> 2
  /\ main (fun _ => None) (fun _ => None) (fun _ => None) enc_header_ok
       enc_body_ok hash_stub ecdsa_accepts (fun _ => inr "no file"%string)
       ["inspector"%string]
     = ([ Stderr ("Usage: inspector <quote-file>" ++ nl)%string;
          Stderr ("Example: inspector quote.bin" ++ nl)%string ], Exit 1).
Proof.
  assert (Hn : length ["inspector"%string] <> 2) by (simpl; lia).
  split; [exact Hn |].
  destruct (X2_main_usage (fun _ => None) (fun _ => None) (fun _ => None)
              enc_header_ok enc_body_ok hash_stub ecdsa_accepts
              (fun _ => inr "no file"%string) ["inspector"%string] Hn)
    as (H & _).
  exact (H "inspector"%string [] eq_refl).
Defined.

(** X3: when the file cannot be read, the inspector has printed the
    file name and a rule, logs the read error as fatal and exits with code
    1; no decoder is called. *)
Theorem X3_main_read_error :
  forall (unmarshal : bytes -> option QuoteV4)
         (toProto : bytes -> option AnyQuote)
         (verify : bytes -> option string)
         (encH : Header -> bytes + string)
         (encB : TDQuoteBody -> bytes + string)
         (sha : bytes -> bytes) (ecdsa : Z -> Z -> bytes -> Z -> Z -> bool)
         (readFile : string -> (Mem * Slice) + string)
         (prog file err : string),
    readFile file = inr err ->
    let run := main unmarshal toProto verify encH encB sha ecdsa readFile
                 [prog; file] in
    run = ([ Stdout ("Reading TDX quote from: " ++ file ++ nl)%string;
             Stdout ("==============================" ++ nl)%string;
             LogFatal ("Failed to read quote file: " ++ err)%string ], Exit 1)
    /\ calls (trace run) = [].
Proof.
  intros unmarshal toProto verify encH encB sha ecdsa readFile prog file err
    Hr run.
  assert (E : run =
      ([ Stdout ("Reading TDX quote from: " ++ file ++ nl)%string;
         Stdout ("==============================" ++ nl)%string;
         LogFatal ("Failed to read quote file: " ++ err)%string ], Exit 1))
    by (now apply main_read_error).
  split; [exact E |]. rewrite E. reflexivity.
Qed.

Lemma X3_main_read_error_witness :
  (fun _ : string => @inr (Mem * Slice) string "no such file"%string)
    "quote.bin"%string = inr "no such file"%string
  /\ result (main (fun _ => Some sample_quote) (fun _ => None) (fun _ => None)
               enc_header_ok enc_body_ok hash_stub ecdsa_accepts
               (fun _ => inr "no such file"%string)
               ["inspector"%string; "quote.bin"%string])
     = Exit 1.
Proof.
  split; [reflexivity |].
  destruct (X3_main_read_error (fun _ => Some sample_quote) (fun _ => None)
              (fun _ => None) enc_header_ok enc_body_ok hash_stub ecdsa_accepts
              (fun _ => inr "no such file"%string)
              "inspector"%string "quote.bin"%string "no such file"%string
              eq_refl) as (E & _).
  cbv zeta in E. rewrite E. reflexivity.
Defined.

(** ** The decoder and the raw path *)

(** X4: when the protobuf parse fails and the ABI conversion succeeds
    with something that is not a QuoteV4, the decoder does not stop: after
    the two calls it announces the raw format and goes on as the raw
    extraction on the same bytes. *)
Theorem X4_decode_other_quote :
  forall (unmarshal : bytes -> option QuoteV4)
         (toProto : bytes -> option AnyQuote)
         (verify : bytes -> option string)
         (encH : Header -> bytes + string)
         (encB : TDQuoteBody -> bytes + string)
         (sha : bytes -> bytes) (ecdsa : Z -> Z -> bytes -> Z -> Z -> bool)
         (m : Mem) (quoteData : Slice),
    unmarshal (slice_bytes m quoteData) = None ->
    toProto (slice_bytes m quoteData) = Some OtherQuote ->
    decode unmarshal toProto verify encH encB sha ecdsa m quoteData
    = (Lib (Call_proto_Unmarshal (slice_bytes m quoteData))
       :: Lib (Call_abi_QuoteToProto (slice_bytes m quoteData))
       :: Stdout raw_banner
       :: trace (extractFromRawQuote verify m quoteData),
       result (extractFromRawQuote verify m quoteData)).
Proof.
  intros unmarshal toProto verify encH encB sha ecdsa m s Hu Ha.
  apply decode_raw; [exact Hu |]. intros q4. rewrite Ha. discriminate.
Qed.

Lemma X4_decode_other_quote_witness :
  (fun _ : bytes => @None QuoteV4) (slice_bytes long_quote_mem long_quote)
  = None
  /\ (fun _ : bytes => Some OtherQuote) (slice_bytes long_quote_mem long_quote)
     = Some OtherQuote
  /\ result (decode (fun _ => None) (fun _ => Some OtherQuote) (fun _ => None)
               enc_header_ok enc_body_ok hash_stub ecdsa_accepts
               long_quote_mem long_quote)
     = Done tt.
Proof.
  split; [reflexivity |]. split; [reflexivity |].
  rewrite (X4_decode_other_quote (fun _ => None) (fun _ => Some OtherQuote)
             (fun _ => None) enc_header_ok enc_body_ok hash_stub ecdsa_accepts
             long_quote_mem long_quote eq_refl eq_refl).
  vm_compute. reflexivity.
Defined.

(** X5: the library's verification of a raw quote decides nothing but
    two lines of warning: after the call and the warning, if any, the run
    is the same whatever the verification returned. *)
Theorem X5_verification_only_warns :
  forall (m : Mem) (quoteData : Slice),
  exists rest outcome,
    forall verify : bytes -> option string,
      extractFromRawQuote verify m quoteData
      = (Lib (Call_verify_RawTdxQuote (slice_bytes m quoteData))
         :: verification_warning (verify (slice_bytes m quoteData)) ++ rest,
         outcome).
Proof.
  intros m s.
  set (tail := r <- extractTDReportFromRawQuote s ;;
               match r with
               | inr err =>
                   log_Fatal ("Failed to extract TD Report from raw quote: "
                              ++ Error err)%string
               | inl tdReport => printRTMRValues m tdReport
               end).
  exists (trace tail), (result tail). intros verify.
  unfold extractFromRawQuote. fold tail.
  destruct (verify (slice_bytes m s)) as [e |];
    unfold call, print, println, emit, ret, bind, verification_warning;
    destruct tail; reflexivity.
Qed.

Lemma load_quote_field (m : Mem) (s : Slice) (f : Field) :
  wf_slice m s -> 48 + field_offset f + field_size f <= len s ->
  load m (ptr s + 48 + field_offset f) (field_size f)
  = Some (quote_fields (slice_bytes m s) f).
Proof.
  intros [Hc Hm] Hf. rewrite load_inside by lia.
  unfold quote_fields, slice_bytes. f_equal.
  rewrite skipn_firstn_slice by lia.
  rewrite skipn_skipn. f_equal. f_equal. lia.
Qed.

(** The reads of the four registers are attempted one after the other,
    each as soon as the one before it did not fault. *)
Lemma register_reads (m : Mem) (p : nat) :
  let R := reads (trace (printRTMRValues m p)) in
  In (p + 808, 48) R
  /\ (p + 856 <= length m -> In (p + 856, 48) R)
  /\ (p + 904 <= length m -> In (p + 904, 48) R)
  /\ (p + 952 <= length m -> In (p + 952, 48) R).
Proof.
  unfold printRTMRValues, field_load, load.
  change (field_offset Rtmr0) with 808. change (field_offset Rtmr1) with 856.
  change (field_offset Rtmr2) with 904. change (field_offset Rtmr3) with 952.
  change (field_size Rtmr0) with 48. change (field_size Rtmr1) with 48.
  change (field_size Rtmr2) with 48. change (field_size Rtmr3) with 48.
  destruct (Nat.leb_spec (p + 808 + 48) (length m)) as [H0 | H0];
    [| cbn; repeat split; intros; (lia || (simpl; tauto))].
  destruct (Nat.leb_spec (p + 856 + 48) (length m)) as [H1 | H1];
    [| cbn; repeat split; intros; (lia || (simpl; tauto))].
  destruct (Nat.leb_spec (p + 904 + 48) (length m)) as [H2 | H2];
    [| cbn; repeat split; intros; (lia || (simpl; tauto))].
  destruct (Nat.leb_spec (p + 952 + 48) (length m)) as [H3 | H3];
    [| cbn; repeat split; intros; (lia || (simpl; tauto))].
  destruct (p + field_offset MrTd + field_size MrTd <=? length m);
    [| cbn; repeat split; intros; simpl; tauto].
  destruct (p + field_offset MrConfigId + field_size MrConfigId <=? length m);
    [| cbn; repeat split; intros; simpl; tauto].
  destruct (p + field_offset MrOwner + field_size MrOwner <=? length m);
    [| cbn; repeat split; intros; simpl; tauto].
  destruct (p + field_offset MrOwnerConfig + field_size MrOwnerConfig
            <=? length m);
    cbn; repeat split; intros; simpl; tauto.
Qed.

Lemma extractFromRawQuote_report (verify : bytes -> option string)
    (m : Mem) (s : Slice) :
  wf_slice m s -> 1048 <= len s ->
  extractFromRawQuote verify m s
  = (Lib (Call_verify_RawTdxQuote (slice_bytes m s))
     :: verification_warning (verify (slice_bytes m s))
     ++ report_events (ptr s + 48) (quote_fields (slice_bytes m s)),
     Done tt).
Proof.
  intros Hwf Hl.
  assert (E : printRTMRValues m (ptr s + 48)
              = (report_events (ptr s + 48) (quote_fields (slice_bytes m s)),
                 Done tt)).
  { apply printRTMRValues_loaded.
    intros f Hf. apply load_quote_field; [exact Hwf |].
    simpl in Hf.
    destruct Hf as [<- | [<- | [<- | [<- | [<- | [<- | [<- | [<- | []]]]]]]]];
      match goal with
      | |- 48 + field_offset ?f + field_size ?f <= _ =>
          let a := eval vm_compute in (field_offset f) in
          let n := eval vm_compute in (field_size f) in
          change (field_offset f) with a; change (field_size f) with n
      end; lia. }
  unfold extractFromRawQuote.
  rewrite extract_long_enough by (destruct Hwf; lia).
  destruct (verify (slice_bytes m s));
    unfold call, print, println, emit, ret, bind, verification_warning;
    rewrite E; reflexivity.
Qed.

(** X6: in raw mode the reads through the report pointer stay inside
    the quote exactly when the quote has at least 1048 bytes (not the 632
    the length check asks for).  From 1048 bytes on the run ends normally
    and prints, after the verification call and its warning, the report of
    the quote's bytes at the struct's offsets. *)
Theorem X6_raw_reads_inside_from_1048 :
  forall (verify : bytes -> option string) (m : Mem) (quoteData : Slice),
    wf_slice m quoteData -> 632 <= len quoteData ->
    let B := slice_bytes m quoteData in
    let run := extractFromRawQuote verify m quoteData in
    (Forall (inside_quote quoteData) (reads (trace run))
     <-> 1048 <= len quoteData)
    /\ (1048 <= len quoteData ->
        run = (Lib (Call_verify_RawTdxQuote B)
               :: verification_warning (verify B)
               ++ report_events (ptr quoteData + 48) (quote_fields B),
               Done tt)).
Proof.
  intros verify m s Hwf Hl B run.
  split; [| intros H; now apply extractFromRawQuote_report].
  split.
  - intros Hin.
    destruct (Nat.lt_ge_cases (len s) 1048) as [Hlt | Hge]; [| exact Hge].
    exfalso.
    destruct Hwf as [Hc Hm].
    destruct (extractFromRawQuote_long verify m s Hc Hl) as (pre & Hpre & E).
    unfold run in Hin. rewrite E in Hin. unfold trace at 1 in Hin.
    cbn [fst] in Hin. rewrite reads_app, Hpre in Hin. cbn [app] in Hin.
    rewrite Forall_forall in Hin.
    destruct (register_reads m (ptr s + 48)) as (R0 & R1 & R2 & R3).
    destruct (Nat.lt_ge_cases (len s) 904) as [H904 | H904].
    { apply Hin in R0. unfold inside_quote in R0. simpl in R0. lia. }
    destruct (Nat.lt_ge_cases (len s) 952) as [H952 | H952].
    { specialize (R1 ltac:(lia)). apply Hin in R1.
      unfold inside_quote in R1. simpl in R1. lia. }
    destruct (Nat.lt_ge_cases (len s) 1000) as [H1000 | H1000].
    { specialize (R2 ltac:(lia)). apply Hin in R2.
      unfold inside_quote in R2. simpl in R2. lia. }
    specialize (R3 ltac:(lia)). apply Hin in R3.
    unfold inside_quote in R3. simpl in R3. lia.
  - intros Hge. unfold run.
    rewrite (extractFromRawQuote_report verify m s Hwf Hge).
    unfold trace; cbn [fst]. cbn [reads].
    rewrite reads_app.
    assert (Hw : reads (verification_warning (verify (slice_bytes m s))) = [])
      by (destruct (verify (slice_bytes m s)); reflexivity).
    rewrite Hw. cbn [app].
    unfold report_events. cbn [reads].
    repeat (apply Forall_cons; [unfold inside_quote; cbn [fst snd]; lia |]).
    apply Forall_nil.
Qed.

Lemma X6_raw_reads_inside_from_1048_witness :
  wf_slice exact_quote_mem exact_quote /\ 632 <= len exact_quote
  /\ Forall (inside_quote exact_quote)
       (reads (trace (extractFromRawQuote (fun _ => None) exact_quote_mem
                        exact_quote)))
  /\ result (extractFromRawQuote (fun _ => None) exact_quote_mem exact_quote)
     = Done tt.
Proof.
  assert (Hwf : wf_slice exact_quote_mem exact_quote)
    by (split; vm_compute; lia).
  assert (Hl : 632 <= len exact_quote) by (simpl; lia).
  split; [exact Hwf |]. split; [exact Hl |].
  destruct (X6_raw_reads_inside_from_1048 (fun _ => None) exact_quote_mem
              exact_quote Hwf Hl) as (Hiff & Hrun).
  split.
  - apply Hiff. simpl. lia.
  - rewrite Hrun by (simpl; lia). reflexivity.
Defined.

Lemma extractFromRawQuote_prints (verify : bytes -> option string)
    (m : Mem) (s : Slice) :
  len s <= cap s -> 632 <= len s ->
  extractFromRawQuote verify m s
  = (Lib (Call_verify_RawTdxQuote (slice_bytes m s))
     :: verification_warning (verify (slice_bytes m s))
     ++ trace (printRTMRValues m (ptr s + 48)),
     result (printRTMRValues m (ptr s + 48))).
Proof.
  intros Hc Hl. unfold extractFromRawQuote.
  rewrite extract_long_enough by assumption.
  destruct (verify (slice_bytes m s));
    unfold call, print, println, emit, ret, bind, verification_warning;
    destruct (printRTMRValues m (ptr s + 48)); reflexivity.
Qed.

Lemma window_agree (m1 m2 : Mem) (a w d n : nat) :
  firstn w (skipn a m1) = firstn w (skipn a m2) -> d + n <= w ->
  firstn n (skipn (a + d) m1) = firstn n (skipn (a + d) m2).
Proof.
  intros H Hd.
  rewrite (Nat.add_comm a d), <- !skipn_skipn.
  rewrite <- (skipn_firstn_slice (skipn a m1) w d n Hd).
  rewrite <- (skipn_firstn_slice (skipn a m2) w d n Hd).
  now rewrite H.
Qed.

(** X7: in raw mode nothing of the first 664 bytes of the quote reaches
    the report: two memories that hold the same 384 bytes from byte 664 of
    the quote on, and on whose quotes the library's verification agrees,
    give the same output, the same reads and a normal end.  The 48-byte
    header and the first 616 bytes behind it are never looked at. *)
Theorem X7_raw_ignores_first_664_bytes :
  forall (verify : bytes -> option string) (m1 m2 : Mem) (quoteData : Slice),
    len quoteData <= cap quoteData -> 632 <= len quoteData ->
    ptr quoteData + 1048 <= length m1 -> ptr quoteData + 1048 <= length m2 ->
    firstn 384 (skipn (ptr quoteData + 664) m1)
    = firstn 384 (skipn (ptr quoteData + 664) m2) ->
    verify (slice_bytes m1 quoteData) = verify (slice_bytes m2 quoteData) ->
    let run1 := extractFromRawQuote verify m1 quoteData in
    let run2 := extractFromRawQuote verify m2 quoteData in
    stdout (trace run1) = stdout (trace run2)
    /\ reads (trace run1) = reads (trace run2)
    /\ result run1 = Done tt /\ result run2 = Done tt.
Proof.
  intros verify m1 m2 s Hc Hl H1 H2 Hw Hv run1 run2.
  set (p := ptr s + 48).
  set (v := fun f => firstn (field_size f) (skipn (p + field_offset f) m1)).
  assert (Hf : forall f, In f printed_fields ->
             616 <= field_offset f /\ field_offset f + field_size f <= 1000).
  { intros f Hin. simpl in Hin.
    destruct Hin as [<- | [<- | [<- | [<- | [<- | [<- | [<- | [<- | []]]]]]]]];
      vm_compute; split; lia. }
  assert (E1 : printRTMRValues m1 p = (report_events p v, Done tt)).
  { apply printRTMRValues_loaded. intros f Hin.
    destruct (Hf f Hin) as [Ha Hb].
    rewrite load_inside by (unfold p; lia). reflexivity. }
  assert (E2 : printRTMRValues m2 p = (report_events p v, Done tt)).
  { apply printRTMRValues_loaded. intros f Hin.
    destruct (Hf f Hin) as [Ha Hb].
    rewrite load_inside by (unfold p; lia). f_equal. unfold v, p.
    replace (ptr s + 48 + field_offset f)
      with (ptr s + 664 + (field_offset f - 616)) by lia.
    symmetry. apply (window_agree m1 m2 (ptr s + 664) 384); [exact Hw | lia]. }
  unfold run1, run2.
  rewrite !extractFromRawQuote_prints by assumption.
  fold p. rewrite E1, E2, Hv.
  unfold trace, result; cbn [fst snd]. cbn [stdout reads].
  repeat split; reflexivity.
Qed.

Lemma X7_raw_ignores_first_664_bytes_witness :
  let m2 := zeros 664 ++ skipn 664 long_quote_mem in
  stdout (trace (extractFromRawQuote (fun _ => None) long_quote_mem long_quote))
  = stdout (trace (extractFromRawQuote (fun _ => None) m2 long_quote))
  /\ slice_bytes long_quote_mem long_quote <> slice_bytes m2 long_quote.
Proof.
  intros m2. split.
  - apply (X7_raw_ignores_first_664_bytes (fun _ => None) long_quote_mem m2
             long_quote);
      try (vm_compute; lia); vm_compute; reflexivity.
  - intros E. vm_compute in E. discriminate E.
Defined.

(** ** Exit codes and crashes *)

Lemma exits_bind {A B} (c : M A) (k : A -> M B) :
  exits_with_1 c -> (forall a, exits_with_1 (k a)) -> exits_with_1 (bind c k).
Proof.
  intros Hc Hk code. rewrite result_bind.
  destruct (result c) as [a | code' |] eqn:E.
  - apply Hk.
  - intros [= <-]. now apply Hc.
  - discriminate.
Qed.

Lemma exits_ret {A} (a : A) : exits_with_1 (ret a).
Proof. intros code [=]. Qed.

Lemma exits_emit (e : event) : exits_with_1 (emit e).
Proof. intros code [=]. Qed.

Lemma exits_panic {A} : exits_with_1 (@panic A).
Proof. intros code [=]. Qed.

Lemma exits_of_option {A} (o : option A) : exits_with_1 (of_option o).
Proof. destruct o; intros code [=]. Qed.

Lemma exits_1 {A} : exits_with_1 (@os_Exit A 1).
Proof. intros code [= <-]. reflexivity. Qed.

Ltac exits :=
  repeat first
    [ apply exits_ret | apply exits_emit | apply exits_panic
    | apply exits_of_option | apply exits_1
    | apply exits_bind; [| intros ?]
    | match goal with
      | |- exits_with_1 (match ?x with _ => _ end) => destruct x
      end ].

Section Outcomes.

Variable encH : Header -> bytes + string.
Variable encB : TDQuoteBody -> bytes + string.
Variable sha : bytes -> bytes.
Variable ecdsa : Z -> Z -> bytes -> Z -> Z -> bool.

Lemma extractFromQuoteV4_outcome (m : Mem) (quote : QuoteV4) :
  result (extractFromQuoteV4 encH encB sha ecdsa m quote)
  = match GetTdQuoteBody quote with Some _ => Done tt | None => Exit 1 end.
Proof.
  destruct (GetTdQuoteBody quote) as [b |] eqn:Hb.
  - now rewrite (extractFromQuoteV4_body encH encB sha ecdsa m quote b Hb).
  - now rewrite (extractFromQuoteV4_no_body encH encB sha ecdsa m quote Hb).
Qed.

Lemma extractFromQuoteV4_exits (m : Mem) (quote : QuoteV4) :
  exits_with_1 (extractFromQuoteV4 encH encB sha ecdsa m quote).
Proof.
  intros code. rewrite extractFromQuoteV4_outcome.
  destruct (GetTdQuoteBody quote); intros H;
    [discriminate H | injection H as <-; reflexivity].
Qed.

Lemma extractFromRawQuote_exits (verify : bytes -> option string)
    (m : Mem) (s : Slice) :
  exits_with_1 (extractFromRawQuote verify m s).
Proof.
  unfold extractFromRawQuote, extractTDReportFromRawQuote, go_reslice,
    go_elem_addr, printRTMRValues, field_load, call, log_Fatal, println, print.
  exits.
Qed.

End Outcomes.

(** X8: the structured path ends normally when the decoded quote has a TD
    quote body and with a fatal log entry and exit code 1 when it has none;
    it never dies in the runtime.  Without a body nothing is read; with
    one, every read goes to the struct the path allocated itself, never to
    the memory that was there before. *)
Theorem X8_structured_outcome :
  forall (encH : Header -> bytes + string)
         (encB : TDQuoteBody -> bytes + string)
         (sha : bytes -> bytes) (ecdsa : Z -> Z -> bytes -> Z -> Z -> bool)
         (m : Mem) (quote : QuoteV4),
    let run := extractFromQuoteV4 encH encB sha ecdsa m quote in
    result run
    = match GetTdQuoteBody quote with Some _ => Done tt | None => Exit 1 end
    /\ (GetTdQuoteBody quote = None ->
        reads (trace run) = []
        /\ exists pre,
             trace run = pre ++ [LogFatal "No TD Quote Body found in quote"]
             /\ Forall (fun e => is_failure e = false) pre)
    /\ Forall (inside_struct (length m)) (reads (trace run)).
Proof.
  intros encH encB sha ecdsa m quote run.
  split; [apply extractFromQuoteV4_outcome |].
  destruct (GetTdQuoteBody quote) as [b |] eqn:Hb.
  - split; [discriminate |].
    unfold run.
    rewrite (extractFromQuoteV4_body encH encB sha ecdsa m quote b Hb).
    unfold trace at 1; cbn [fst].
    rewrite reads_app, validateQuoteStructure_no_reads. cbn [app].
    unfold report_events. cbn [reads].
    repeat (apply Forall_cons;
            [unfold inside_struct; cbn [fst snd];
             rewrite sizeof_TDReport_1048; lia |]).
    apply Forall_nil.
  - assert (E : run =
        (trace (validateQuoteStructure encH encB sha ecdsa quote)
         ++ [LogFatal "No TD Quote Body found in quote"], Exit 1))
      by (now apply extractFromQuoteV4_no_body).
    assert (Hr : reads (trace run) = []).
    { rewrite E. unfold trace at 1; cbn [fst].
      now rewrite reads_app, validateQuoteStructure_no_reads. }
    split.
    + intros _. split; [exact Hr |].
      exists (trace (validateQuoteStructure encH encB sha ecdsa quote)).
      split; [rewrite E; reflexivity |].
      apply validateQuoteStructure_no_failure.
    + rewrite Hr. constructor.
Qed.

(** X9: whatever the arguments, the file and the libraries do, the
    inspector leaves with exit code 1 whenever it leaves early, and it can
    die in the runtime only with an empty argument vector or on the raw
    path, after it announced the raw format: the usage check, the file read
    and the structured path never crash. *)
Theorem X9_main_outcomes :
  forall (unmarshal : bytes -> option QuoteV4)
         (toProto : bytes -> option AnyQuote)
         (verify : bytes -> option string)
         (encH : Header -> bytes + string)
         (encB : TDQuoteBody -> bytes + string)
         (sha : bytes -> bytes) (ecdsa : Z -> Z -> bytes -> Z -> Z -> bool)
         (readFile : string -> (Mem * Slice) + string)
         (Args : list string),
    let run := main unmarshal toProto verify encH encB sha ecdsa readFile
                 Args in
    exits_with_1 run
    /\ (result run = Panic -> Args = [] \/ In (Stdout raw_banner) (trace run))
    /\ (result run = Done tt -> length Args = 2).
Proof.
  intros unmarshal toProto verify encH encB sha ecdsa readFile Args run.
  destruct Args as [| prog [| file [| extra rest]]].
  - unfold run, main. cbn.
    split; [intros code [=] |]. split; [now left | discriminate].
  - unfold run.
    rewrite (main_wrong_count unmarshal toProto verify encH encB sha ecdsa
               readFile [prog] prog) by (simpl; (lia || reflexivity)).
    split; [intros code [= <-]; reflexivity |].
    split; discriminate.
  - split; [| split; [| reflexivity]].
    + unfold run.
      destruct (readFile file) as [[m s] | err] eqn:Hr.
      * rewrite (main_read_ok unmarshal toProto verify encH encB sha ecdsa
                   readFile prog file m s Hr).
        intros code. unfold result at 1; cbn [snd].
        destruct (unmarshal (slice_bytes m s)) as [q |] eqn:Hu.
        { rewrite (decode_structured unmarshal toProto verify encH encB sha
                     ecdsa m s q Hu).
          unfold result at 1; cbn [snd]. apply extractFromQuoteV4_exits. }
        destruct (toProto (slice_bytes m s)) as [[q4 |] |] eqn:Ha.
        { rewrite (decode_converted unmarshal toProto verify encH encB sha
                     ecdsa m s q4 Hu Ha).
          unfold result at 1; cbn [snd]. apply extractFromQuoteV4_exits. }
        { rewrite (decode_raw unmarshal toProto verify encH encB sha ecdsa
                     m s Hu) by (intros q4; rewrite Ha; discriminate).
          unfold result at 1; cbn [snd]. apply extractFromRawQuote_exits. }
        { rewrite (decode_raw unmarshal toProto verify encH encB sha ecdsa
                     m s Hu) by (intros q4; rewrite Ha; discriminate).
          unfold result at 1; cbn [snd]. apply extractFromRawQuote_exits. }
      * rewrite (main_read_error unmarshal toProto verify encH encB sha ecdsa
                   readFile prog file err Hr).
        intros code [= <-]. reflexivity.
    + unfold run.
      destruct (readFile file) as [[m s] | err] eqn:Hr.
      * rewrite (main_read_ok unmarshal toProto verify encH encB sha ecdsa
                   readFile prog file m s Hr).
        unfold result at 1, trace at 1; cbn [fst snd].
        destruct (unmarshal (slice_bytes m s)) as [q |] eqn:Hu.
        { rewrite (decode_structured unmarshal toProto verify encH encB sha
                     ecdsa m s q Hu).
          unfold result at 1; cbn [snd]. rewrite extractFromQuoteV4_outcome.
          destruct (GetTdQuoteBody q); discriminate. }
        destruct (toProto (slice_bytes m s)) as [[q4 |] |] eqn:Ha.
        { rewrite (decode_converted unmarshal toProto verify encH encB sha
                     ecdsa m s q4 Hu Ha).
          unfold result at 1; cbn [snd]. rewrite extractFromQuoteV4_outcome.
          destruct (GetTdQuoteBody q4); discriminate. }
        { rewrite (decode_raw unmarshal toProto verify encH encB sha ecdsa
                     m s Hu) by (intros q4; rewrite Ha; discriminate).
          intros _. right. apply in_or_app. right.
          unfold trace; cbn [fst]. do 2 right. now left. }
        { rewrite (decode_raw unmarshal toProto verify encH encB sha ecdsa
                     m s Hu) by (intros q4; rewrite Ha; discriminate).
          intros _. right. apply in_or_app. right.
          unfold trace; cbn [fst]. do 2 right. now left. }
      * rewrite (main_read_error unmarshal toProto verify encH encB sha ecdsa
                   readFile prog file err Hr).
        discriminate.
  - unfold run.
    rewrite (main_wrong_count unmarshal toProto verify encH encB sha ecdsa
               readFile (prog :: file :: extra :: rest) prog)
      by (simpl; (lia || reflexivity)).
    split; [intros code [= <-]; reflexivity |].
    split; discriminate.
Qed.

(** ** When the signature is checked *)

Lemma validate_calls (encH : Header -> bytes + string)
    (encB : TDQuoteBody -> bytes + string) (sha : bytes -> bytes)
    (ecdsa : Z -> Z -> bytes -> Z -> Z -> bool) (quote : QuoteV4) :
  calls (trace (validateQuoteStructure encH encB sha ecdsa quote))
  = match GetHeader quote, GetSignedData quote with
    | Some _, Some sd =>
        if (length (GetSignature sd) =? 64)
           && (length (GetEcdsaAttestationKey sd) =? 64)
        then calls (trace (validateECDSASignature encH encB sha ecdsa quote
                             (GetSignature sd) (GetEcdsaAttestationKey sd)))
        else []
    | _, _ => []
    end.
Proof.
  unfold validateQuoteStructure.
  destruct (GetHeader quote) as [h |]; [| reflexivity].
  destruct (GetSignedData quote) as [sd |]; [| reflexivity].
  destruct ((length (GetSignature sd) =? 64)
            && (length (GetEcdsaAttestationKey sd) =? 64)).
  - pose proof (validateECDSASignature_completes encH encB sha ecdsa quote
                  (GetSignature sd) (GetEcdsaAttestationKey sd)) as Hres.
    destruct (validateECDSASignature encH encB sha ecdsa quote
                (GetSignature sd) (GetEcdsaAttestationKey sd)) as [t r].
    unfold result in Hres; cbn [snd] in Hres; subst r.
    destruct (0 <? length (GetSignature sd));
      destruct (0 <? length (GetEcdsaAttestationKey sd));
      unfold print, println, emit, ret, bind, trace; cbn [fst];
      cbn [calls app]; rewrite !calls_app; cbn [calls];
      now rewrite !app_nil_r.
  - destruct (0 <? length (GetSignature sd));
      destruct (0 <? length (GetEcdsaAttestationKey sd)); reflexivity.
Qed.

(** X10: the validation runs the ECDSA check exactly when the quote has a
    header and signed data, signature and key have 64 bytes each, the key
    is on the curve, the quote has a TD quote body and both ABI encodings
    succeed; it then runs it once, on the SHA-256 of the header bytes
    followed by the body bytes, with r, s, x and y read from the halves of
    signature and key. *)
Theorem X10_signature_checked_iff :
  forall (encH : Header -> bytes + string)
         (encB : TDQuoteBody -> bytes + string)
         (sha : bytes -> bytes) (ecdsa : Z -> Z -> bytes -> Z -> Z -> bool)
         (quote : QuoteV4),
    let run := validateQuoteStructure encH encB sha ecdsa quote in
    (existsb is_ecdsa_Verify (calls (trace run)) = true
     <-> exists header sd body headerBytes bodyBytes,
           GetHeader quote = Some header
           /\ GetSignedData quote = Some sd
           /\ length (GetSignature sd) = 64
           /\ length (GetEcdsaAttestationKey sd) = 64
           /\ P256.IsOnCurve
                (SetBytes (firstn 32 (GetEcdsaAttestationKey sd)))
                (SetBytes (skipn 32 (GetEcdsaAttestationKey sd))) = true
           /\ GetTdQuoteBody quote = Some body
           /\ encH header = inl headerBytes
           /\ encB body = inl bodyBytes)
    /\ (forall header sd body headerBytes bodyBytes,
          GetHeader quote = Some header ->
          GetSignedData quote = Some sd ->
          length (GetSignature sd) = 64 ->
          length (GetEcdsaAttestationKey sd) = 64 ->
          P256.IsOnCurve
            (SetBytes (firstn 32 (GetEcdsaAttestationKey sd)))
            (SetBytes (skipn 32 (GetEcdsaAttestationKey sd))) = true ->
          GetTdQuoteBody quote = Some body ->
          encH header = inl headerBytes -> encB body = inl bodyBytes ->
          filter is_ecdsa_Verify (calls (trace run))
          = [ Call_ecdsa_Verify
                (SetBytes (firstn 32 (GetEcdsaAttestationKey sd)))
                (SetBytes (skipn 32 (GetEcdsaAttestationKey sd)))
                (sha (headerBytes ++ bodyBytes))
                (SetBytes (firstn 32 (GetSignature sd)))
                (SetBytes (skipn 32 (GetSignature sd))) ]).
Proof.
  intros encH encB sha ecdsa quote run.
  assert (Hgood : forall header sd body hb bb,
          GetHeader quote = Some header ->
          GetSignedData quote = Some sd ->
          length (GetSignature sd) = 64 ->
          length (GetEcdsaAttestationKey sd) = 64 ->
          P256.IsOnCurve
            (SetBytes (firstn 32 (GetEcdsaAttestationKey sd)))
            (SetBytes (skipn 32 (GetEcdsaAttestationKey sd))) = true ->
          GetTdQuoteBody quote = Some body ->
          encH header = inl hb -> encB body = inl bb ->
          calls (trace run)
          = [ Call_IsOnCurve
                (SetBytes (firstn 32 (GetEcdsaAttestationKey sd)))
                (SetBytes (skipn 32 (GetEcdsaAttestationKey sd)));
              Call_abi_HeaderToAbiBytes header;
              Call_abi_TdQuoteBodyToAbiBytes body;
              Call_sha256_Sum256 (hb ++ bb);
              Call_ecdsa_Verify
                (SetBytes (firstn 32 (GetEcdsaAttestationKey sd)))
                (SetBytes (skipn 32 (GetEcdsaAttestationKey sd)))
                (sha (hb ++ bb))
                (SetBytes (firstn 32 (GetSignature sd)))
                (SetBytes (skipn 32 (GetSignature sd))) ]).
  { intros header sd body hb bb Hh Hsd Hs Hk Hc Hb Eh Eb.
    unfold run. rewrite validate_calls, Hh, Hsd, Hs, Hk. cbn [Nat.eqb andb].
    change (64 =? 64) with true. cbn [andb].
    destruct (verifier_payload encH encB sha ecdsa quote (GetSignature sd)
                (GetEcdsaAttestationKey sd) Hs Hk Hc header body hb bb
                Hh Hb Eh Eb) as (E & _).
    exact E. }
  split.
  - split.
    + intros Hex. unfold run in Hex. rewrite validate_calls in Hex.
      destruct (GetHeader quote) as [header |] eqn:Hh; [| discriminate Hex].
      destruct (GetSignedData quote) as [sd |] eqn:Hsd; [| discriminate Hex].
      destruct (length (GetSignature sd) =? 64) eqn:Hs;
        [| discriminate Hex].
      destruct (length (GetEcdsaAttestationKey sd) =? 64) eqn:Hk;
        [| discriminate Hex].
      apply Nat.eqb_eq in Hs, Hk. cbn [andb] in Hex.
      destruct (P256.IsOnCurve
                  (SetBytes (firstn 32 (GetEcdsaAttestationKey sd)))
                  (SetBytes (skipn 32 (GetEcdsaAttestationKey sd)))) eqn:Hc.
      * destruct (signed_payload encH encB quote) as [payload |] eqn:Hp.
        { unfold signed_payload in Hp. rewrite Hh in Hp.
          destruct (GetTdQuoteBody quote) as [body |] eqn:Hb;
            [| discriminate Hp].
          destruct (encH header) as [hb | e] eqn:Eh; [| discriminate Hp].
          destruct (encB body) as [bb | e] eqn:Eb; [| discriminate Hp].
          exists header, sd, body, hb, bb. repeat split; assumption. }
        { destruct (verifier_no_payload encH encB sha ecdsa quote
                      (GetSignature sd) (GetEcdsaAttestationKey sd) Hs Hk Hc Hp)
            as (_ & Hno & _).
          rewrite Hno in Hex. discriminate Hex. }
      * rewrite (verifier_off_curve encH encB sha ecdsa quote (GetSignature sd)
                   (GetEcdsaAttestationKey sd) Hs Hk Hc) in Hex.
        discriminate Hex.
    + intros (header & sd & body & hb & bb & Hh & Hsd & Hs & Hk & Hc & Hb
              & Eh & Eb).
      rewrite (Hgood header sd body hb bb Hh Hsd Hs Hk Hc Hb Eh Eb).
      reflexivity.
  - intros header sd body hb bb Hh Hsd Hs Hk Hc Hb Eh Eb.
    rewrite (Hgood header sd body hb bb Hh Hsd Hs Hk Hc Hb Eh Eb).
    reflexivity.
Qed.

Lemma X10_signature_checked_iff_witness :
  existsb is_ecdsa_Verify
    (calls (trace (validateQuoteStructure enc_header_ok enc_body_ok hash_stub
                     ecdsa_rejects sample_quote))) = true
  /\ existsb is_ecdsa_Verify
       (calls (trace (validateQuoteStructure enc_header_ok enc_body_ok
                        hash_stub ecdsa_rejects bodyless_quote))) = false.
Proof.
  destruct (X10_signature_checked_iff enc_header_ok enc_body_ok hash_stub
              ecdsa_rejects sample_quote) as ((_ & Hyes) & _).
  destruct (X10_signature_checked_iff enc_header_ok enc_body_ok hash_stub
              ecdsa_rejects bodyless_quote) as ((Hno & _) & _).
  split.
  - apply Hyes.
    exists sample_header, sample_signed, sample_body, [x01; x02], [x03].
    repeat split; vm_compute; reflexivity.
  - apply not_true_is_false. intros E.
    destruct (Hno E) as (h & sd & b & hb & bb & _ & _ & _ & _ & _ & Hb & _).
    discriminate Hb.
Defined.

Lemma verifier_wrong_length (encH : Header -> bytes + string)
    (encB : TDQuoteBody -> bytes + string) (sha : bytes -> bytes)
    (ecdsa : Z -> Z -> bytes -> Z -> Z -> bool) (quote : QuoteV4)
    (signature publicKey : bytes) :
  length signature <> 64 \/ length publicKey <> 64 ->
  calls (trace (validateECDSASignature encH encB sha ecdsa quote
                  signature publicKey)) = [].
Proof.
  intros H. unfold validateECDSASignature.
  destruct (length signature =? 64) eqn:Hs; [| reflexivity].
  destruct (length publicKey =? 64) eqn:Hk; [| reflexivity].
  apply Nat.eqb_eq in Hs, Hk. tauto.
Qed.

(** X11: every ECDSA verification the verifier runs is on a 64-byte
    signature and a 64-byte key that passed the curve check, with r, s, x
    and y read from the halves of signature and key, and on the SHA-256 of
    the header bytes followed by the body bytes of a quote that has both
    and encodes: it never verifies with an unchecked key, with inputs of
    another length or on a partial payload. *)
Theorem X11_ecdsa_only_on_checked_key :
  forall (encH : Header -> bytes + string)
         (encB : TDQuoteBody -> bytes + string)
         (sha : bytes -> bytes) (ecdsa : Z -> Z -> bytes -> Z -> Z -> bool)
         (quote : QuoteV4) (signature publicKey : bytes)
         (x y : Z) (hash : bytes) (r s : Z),
    In (Call_ecdsa_Verify x y hash r s)
       (calls (trace (validateECDSASignature encH encB sha ecdsa quote
                        signature publicKey))) ->
    length signature = 64 /\ length publicKey = 64
    /\ r = SetBytes (firstn 32 signature) /\ s = SetBytes (skipn 32 signature)
    /\ x = SetBytes (firstn 32 publicKey) /\ y = SetBytes (skipn 32 publicKey)
    /\ P256.IsOnCurve x y = true
    /\ exists header body headerBytes bodyBytes,
         GetHeader quote = Some header /\ GetTdQuoteBody quote = Some body
         /\ encH header = inl headerBytes /\ encB body = inl bodyBytes
         /\ hash = sha (headerBytes ++ bodyBytes).
Proof.
  intros encH encB sha ecdsa quote signature publicKey x y hash r s Hin.
  destruct (Nat.eq_dec (length signature) 64) as [Hs | Hs];
    [| rewrite verifier_wrong_length in Hin by tauto; destruct Hin].
  destruct (Nat.eq_dec (length publicKey) 64) as [Hk | Hk];
    [| rewrite verifier_wrong_length in Hin by tauto; destruct Hin].
  destruct (P256.IsOnCurve (SetBytes (firstn 32 publicKey))
              (SetBytes (skipn 32 publicKey))) eqn:Hc.
  - destruct (signed_payload encH encB quote) as [payload |] eqn:Hp.
    + unfold signed_payload in Hp.
      destruct (GetHeader quote) as [header |] eqn:Hh; [| discriminate Hp].
      destruct (GetTdQuoteBody quote) as [body |] eqn:Hb; [| discriminate Hp].
      destruct (encH header) as [hb | e] eqn:Eh; [| discriminate Hp].
      destruct (encB body) as [bb | e] eqn:Eb; [| discriminate Hp].
      destruct (verifier_payload encH encB sha ecdsa quote signature publicKey
                  Hs Hk Hc header body hb bb Hh Hb Eh Eb) as (E & _).
      rewrite E in Hin. simpl in Hin.
      destruct Hin as [H | [H | [H | [H | [H | []]]]]]; try discriminate H.
      injection H as <- <- <- <- <-.
      repeat split; try assumption.
      exists header, body, hb, bb. repeat split; assumption.
    + destruct (verifier_no_payload encH encB sha ecdsa quote signature
                  publicKey Hs Hk Hc Hp) as (_ & Hno & _).
      exfalso.
      assert (Ht : existsb is_ecdsa_Verify
                     (calls (trace (validateECDSASignature encH encB sha ecdsa
                                      quote signature publicKey))) = true).
      { apply existsb_exists. eexists. split; [exact Hin | reflexivity]. }
      rewrite Hno in Ht. discriminate Ht.
  - rewrite (verifier_off_curve encH encB sha ecdsa quote signature publicKey
               Hs Hk Hc) in Hin.
    simpl in Hin. destruct Hin as [H | []]. discriminate H.
Qed.

Lemma X11_ecdsa_only_on_checked_key_witness :
  In (Call_ecdsa_Verify P256.Gx P256.Gy (hash_stub [x01; x02; x03]) 1 2)
     (calls (trace (validateECDSASignature enc_header_ok enc_body_ok hash_stub
                      ecdsa_accepts sample_quote sample_signature sample_key)))
  /\ P256.IsOnCurve P256.Gx P256.Gy = true.
Proof.
  assert (Hin : In (Call_ecdsa_Verify P256.Gx P256.Gy
                      (hash_stub [x01; x02; x03]) 1 2)
     (calls (trace (validateECDSASignature enc_header_ok enc_body_ok hash_stub
                      ecdsa_accepts sample_quote sample_signature sample_key))))
    by (vm_compute; tauto).
  split; [exact Hin |].
  destruct (X11_ecdsa_only_on_checked_key enc_header_ok enc_body_ok hash_stub
              ecdsa_accepts sample_quote sample_signature sample_key
              P256.Gx P256.Gy (hash_stub [x01; x02; x03]) 1 2 Hin)
    as (_ & _ & _ & _ & _ & _ & Hc & _).
  exact Hc.
Defined.

Lemma string_append_empty (s : string) : (s ++ EmptyString)%string = s.
Proof. induction s as [| c s IH]; simpl; [reflexivity | now rewrite IH]. Qed.

(** X12: [createSignedPayload] returns the header bytes followed by the
    body bytes when both encodings succeed and nil otherwise.  It encodes
    the header first and asks for the body encoding only after that
    succeeded; when header or body is missing it calls no encoder and prints
    nothing.  The length it prints is the payload's, the sum of the two
    encodings' lengths. *)
Theorem X12_payload_encoders :
  forall (encH : Header -> bytes + string)
         (encB : TDQuoteBody -> bytes + string) (quote : QuoteV4),
    let run := createSignedPayload encH encB quote in
    result run = Done (signed_payload encH encB quote)
    /\ calls (trace run)
       = match GetHeader quote, GetTdQuoteBody quote with
         | Some header, Some body =>
             Call_abi_HeaderToAbiBytes header
             :: match encH header with
                | inl _ => [Call_abi_TdQuoteBodyToAbiBytes body]
                | inr _ => []
                end
         | _, _ => []
         end
    /\ (forall payload,
          signed_payload encH encB quote = Some payload ->
          stdout (trace run)
          = ("Signed payload length: " ++ dec (length payload) ++ " bytes"
             ++ nl)%string
          /\ exists header body headerBytes bodyBytes,
               GetHeader quote = Some header
               /\ GetTdQuoteBody quote = Some body
               /\ encH header = inl headerBytes /\ encB body = inl bodyBytes
               /\ payload = headerBytes ++ bodyBytes
               /\ length payload = length headerBytes + length bodyBytes)
    /\ ((GetHeader quote = None \/ GetTdQuoteBody quote = None) ->
        trace run = []).
Proof.
  intros encH encB quote run.
  split; [apply createSignedPayload_result |].
  unfold run, createSignedPayload, signed_payload.
  destruct (GetHeader quote) as [h |] eqn:Hh;
    [| split; [reflexivity |]; split; [intros ? [=] | reflexivity]].
  destruct (GetTdQuoteBody quote) as [b |] eqn:Hb;
    [| split; [reflexivity |]; split; [intros ? [=] | reflexivity]].
  unfold call, print, emit, ret, bind.
  destruct (encH h) as [hb | e] eqn:Eh.
  - destruct (encB b) as [bb | e'] eqn:Eb.
    + split; [reflexivity |]. split.
      * intros payload [= <-]. split.
        { unfold trace; cbn [fst app stdout].
          now rewrite string_append_empty. }
        exists h, b, hb, bb.
        repeat split; try assumption. apply length_app.
      * intros [H | H]; discriminate H.
    + split; [reflexivity |]. split; [intros ? [=] |].
      intros [H | H]; discriminate H.
  - split; [reflexivity |]. split; [intros ? [=] |].
    intros [H | H]; discriminate H.
Qed.

(** ** Copies into the struct *)

(** X13: a copy into one field of a struct in memory changes that field
    to the result of Go's [copy] and nothing else: every other field reads
    as before, the memory in front of the struct is untouched and the
    memory keeps its size. *)
Theorem X13_field_copy_frame :
  forall (m : Mem) (v : Field -> bytes) (f : Field) (src : bytes),
    sized TDReport v ->
    exists m',
      field_copy (m ++ image TDReport v) (length m) f src = ret m'
      /\ length m' = length m + sizeof_TDReport
      /\ firstn (length m) m' = m
      /\ result (field_load m' (length m) f) = Done (go_copy (v f) src)
      /\ forall g, g <> f ->
           result (field_load m' (length m) g) = Done (v g).
Proof.
  intros m v f src Hs.
  exists (m ++ image TDReport (upd v f (go_copy (v f) src))).
  assert (Hs' : sized TDReport (upd v f (go_copy (v f) src)))
    by (now apply sized_copy).
  split; [now apply field_copy_image |].
  split.
  { rewrite length_app. f_equal.
    clear Hs. revert Hs'. generalize (upd v f (go_copy (v f) src)).
    intros w Hw. unfold sizeof_TDReport.
    generalize dependent TDReport. intros fs. induction fs as [| [g k] t IH].
    - reflexivity.
    - intros Hw. apply sized_tail in Hw. destruct Hw as [Hg Ht].
      unfold image in *. simpl. rewrite length_app, IH by assumption.
      simpl in Hg. now rewrite Hg. }
  split.
  { rewrite firstn_app, firstn_all, Nat.sub_diag. simpl.
    now rewrite app_nil_r. }
  split.
  - unfold field_load. rewrite field_load_image by assumption.
    unfold upd. now rewrite Field_eqb_refl.
  - intros g Hg. unfold field_load.
    rewrite field_load_image by assumption.
    unfold upd. destruct (Field_eqb f g) eqn:E; [| reflexivity].
    apply Field_eqb_eq in E. congruence.
Qed.

Lemma X13_field_copy_frame_witness :
  sized TDReport (body_fields sample_body)
  /\ exists m',
       field_copy (image TDReport (body_fields sample_body)) 0 MrOwner
         [x07; x08] = ret m'
       /\ result (field_load m' 0 MrOwner) = Done ([x07; x08] ++ zeros 46)
       /\ result (field_load m' 0 Rtmr3) = Done last_byte_set.
Proof.
  assert (Hs : sized TDReport (body_fields sample_body))
    by apply sized_body_fields.
  split; [exact Hs |].
  destruct (X13_field_copy_frame [] (body_fields sample_body) MrOwner
              [x07; x08] Hs) as (m' & E & _ & _ & Hf & Hg).
  exists m'. split; [exact E |]. split; [exact Hf |].
  apply (Hg Rtmr3). discriminate.
Defined.

(** ** The register lines, read back *)

Lemma append_same_length (a b c d : string) :
  String.length a = String.length b ->
  (a ++ c = b ++ d)%string -> a = b /\ c = d.
Proof.
  revert b. induction a as [| x a IH]; intros [| y b] Hl H;
    try discriminate Hl.
  - now split.
  - simpl in H. injection H as -> H. injection Hl as Hl.
    destruct (IH b Hl H) as [-> ->]. now split.
Qed.

Lemma hex_injective (r1 r2 : bytes) : hex r1 = hex r2 -> r1 = r2.
Proof.
  intros H. pose proof (unhex_hex r1) as H1. rewrite H, unhex_hex in H1.
  now injection H1.
Qed.

Lemma rtmr_line_injective (i : nat) (r1 r2 : bytes) :
  length r1 = 48 -> length r2 = 48 ->
  rtmr_line i r1 = rtmr_line i r2 -> r1 = r2.
Proof.
  intros H1 H2 E.
  destruct (rtmr_line_spec i r1 H1) as (_ & Hh1 & Hz1).
  destruct (rtmr_line_spec i r2 H2) as (_ & Hh2 & Hz2).
  destruct (list_eq_dec Byte.byte_eq_dec r1 (zeros 48)) as [Z1 | N1].
  - assert (Z2 : r2 = zeros 48)
      by (apply Hz2; rewrite <- E; now apply Hz1).
    congruence.
  - destruct (list_eq_dec Byte.byte_eq_dec r2 (zeros 48)) as [Z2 | N2].
    + exfalso. apply N1. apply Hz1. rewrite E. now apply Hz2.
    + rewrite (Hh1 N1), (Hh2 N2) in E. unfold hex_line in E.
      apply append_inj_l, append_inj_l, append_inj_l in E.
      apply hex_injective.
      apply (append_same_length (hex r1) (hex r2) nl nl);
        [now rewrite !hex_length, H1, H2 | exact E].
Qed.

(** X14: the line printed for a register determines the register: two
    different 48-byte values never get the same line, the all-zero value
    included. *)
Theorem X14_register_line_determines_register :
  forall (i : nat) (r1 r2 : bytes),
    length r1 = 48 -> length r2 = 48 -> r1 <> r2 ->
    rtmr_line i r1 <> rtmr_line i r2.
Proof.
  intros i r1 r2 H1 H2 Hne E. apply Hne.
  now apply (rtmr_line_injective i).
Qed.

Lemma X14_register_line_determines_register_witness :
  length last_byte_set = 48 /\ length (zeros 48) = 48
  /\ last_byte_set <> zeros 48
  /\ rtmr_line 1 last_byte_set <> rtmr_line 1 (zeros 48).
Proof.
  assert (Hne : last_byte_set <> zeros 48)
    by (intros E; vm_compute in E; discriminate E).
  split; [reflexivity |]. split; [reflexivity |]. split; [exact Hne |].
  apply (X14_register_line_determines_register 1 last_byte_set (zeros 48));
    [reflexivity | reflexivity | exact Hne].
Defined.

(** ** The command line of the replay *)

Module ReplayNewlines.
Import Replay.

Lemma rstrip_end_app (sep s x : bytes) (j : nat) :
  j <= length s -> rstrip_end sep (s ++ x) j = rstrip_end sep s j.
Proof.
  induction j as [| j IH]; intros Hj; [reflexivity |].
  simpl. rewrite app_nth1 by lia.
  destruct (memchr sep (nth j s x00)); [apply IH; lia | reflexivity].
Qed.

Lemma rstrip_app_newline (s : bytes) :
  rstrip (s ++ [x0a]) [x0a] = rstrip s [x0a].
Proof.
  unfold rstrip. rewrite length_app. cbn [length].
  rewrite Nat.add_1_r. cbn [rstrip_end].
  rewrite app_nth2, Nat.sub_diag by lia. cbn [nth].
  change (memchr [x0a] x0a) with true. cbv iota.
  rewrite rstrip_end_app by lia.
  pose proof (ReplayFacts.rstrip_end_le [x0a] s (length s)) as He.
  rewrite firstn_app.
  replace (rstrip_end [x0a] s (length s) - length s) with 0 by lia.
  cbn [firstn]. now rewrite app_nil_r.
Qed.

Lemma rstrip_app_newlines (s : bytes) (k : nat) :
  rstrip (s ++ repeat x0a k) [x0a] = rstrip s [x0a].
Proof.
  induction k as [| k IH].
  - simpl. now rewrite app_nil_r.
  - rewrite <- IH. cbn [repeat]. rewrite repeat_cons, app_assoc.
    apply rstrip_app_newline.
Qed.

Lemma rstrip_unchanged (s : bytes) :
  (forall init, s <> init ++ [x0a]) -> rstrip s [x0a] = s.
Proof.
  intros Hs.
  destruct (ReplayFacts.rstrip_newline s) as ([| k] & E & _).
  - simpl in E. rewrite app_nil_r in E. now symmetry.
  - exfalso. cbn [repeat] in E. rewrite repeat_cons, app_assoc in E.
    exact (Hs _ E).
Qed.

End ReplayNewlines.

(** X15: the script's result does not depend on how many newlines end
    the command line: appending newlines changes neither the register nor
    the printed line.  Nothing else is trimmed: a command line that does
    not end in a newline is hashed as it is, and stripping twice is
    stripping once. *)
Theorem X15_trailing_newlines :
  forall (hashlib_sha384 : bytes -> bytes) (K I C : bytes) (k : nat),
    Replay.replay hashlib_sha384 K I (C ++ repeat x0a k)
    = Replay.replay hashlib_sha384 K I C
    /\ Replay.script hashlib_sha384 K I (C ++ repeat x0a k)
       = Replay.script hashlib_sha384 K I C
    /\ ((forall init, C <> init ++ [x0a]) -> Replay.rstrip C [x0a] = C)
    /\ Replay.rstrip (Replay.rstrip C [x0a]) [x0a] = Replay.rstrip C [x0a].
Proof.
  intros sha K I C k.
  assert (E : Replay.replay sha K I (C ++ repeat x0a k)
              = Replay.replay sha K I C).
  { unfold Replay.replay. now rewrite ReplayNewlines.rstrip_app_newlines. }
  split; [exact E |].
  split; [unfold Replay.script; now rewrite E |].
  split; [apply ReplayNewlines.rstrip_unchanged |].
  apply ReplayNewlines.rstrip_unchanged.
  destruct (ReplayFacts.rstrip_newline C) as (n & _ & H). exact H.
Qed.

Lemma X15_trailing_newlines_witness :
  Replay.rstrip sample_cmdline [x0a] = sample_cmdline
  /\ Replay.replay hash_stub [x01] [x02] (sample_cmdline ++ repeat x0a 3)
     = Replay.replay hash_stub [x01] [x02] sample_cmdline.
Proof.
  destruct (X15_trailing_newlines hash_stub [x01] [x02] sample_cmdline 3)
    as (E & _ & Hu & _).
  split; [| exact E].
  apply Hu. intros init H.
  assert (Hl : last sample_cmdline x00 = last (init ++ [x0a]) x00)
    by (now rewrite H).
  rewrite last_last in Hl. vm_compute in Hl. discriminate Hl.
Defined.

(** ** Signature and key as numbers *)

Lemma big_endian_bound (l : bytes) :
  (0 <= big_endian l < 256 ^ Z.of_nat (length l))%Z.
Proof.
  induction l as [| b l IH]; [simpl; lia |].
  cbn [big_endian length]. rewrite Nat2Z.inj_succ, Z.pow_succ_r by lia.
  pose proof (Byte.to_N_bounded b) as Hb.
  assert (0 <= Z.of_N (Byte.to_N b) <= 255)%Z by lia.
  nia.
Qed.

Lemma to_N_injective (a b : byte) : Byte.to_N a = Byte.to_N b -> a = b.
Proof.
  intros H. pose proof (Byte.of_to_N a) as Ha.
  rewrite H, Byte.of_to_N in Ha. now injection Ha.
Qed.

Lemma big_endian_injective (l1 l2 : bytes) :
  length l1 = length l2 -> big_endian l1 = big_endian l2 -> l1 = l2.
Proof.
  revert l2. induction l1 as [| a l1 IH]; intros [| b l2] Hl H;
    try discriminate Hl; [reflexivity |].
  injection Hl as Hl. cbn [big_endian] in H. rewrite Hl in H.
  pose proof (big_endian_bound l1) as B1.
  pose proof (big_endian_bound l2) as B2. rewrite Hl in B1.
  pose proof (Byte.to_N_bounded a) as Ha.
  pose proof (Byte.to_N_bounded b) as Hb.
  set (P := (256 ^ Z.of_nat (length l2))%Z) in *.
  assert (HP : (0 < P)%Z) by (unfold P; apply Z.pow_pos_nonneg; lia).
  assert (Hab : Z.of_N (Byte.to_N a) = Z.of_N (Byte.to_N b)) by nia.
  assert (Hv : big_endian l1 = big_endian l2) by nia.
  f_equal; [apply to_N_injective; lia | now apply IH].
Qed.

(** X16: the two halves of a 64-byte signature (and likewise of a
    64-byte key) are read as numbers below 2^256, and the reading loses
    nothing: two 64-byte signatures with the same r and the same s are the
    same bytes. *)
Theorem X16_signature_numbers :
  forall sig1 sig2 : bytes,
    length sig1 = 64 -> length sig2 = 64 ->
    (0 <= SetBytes (firstn 32 sig1) < 2 ^ 256
     /\ 0 <= SetBytes (skipn 32 sig1) < 2 ^ 256)%Z
    /\ (SetBytes (firstn 32 sig1) = SetBytes (firstn 32 sig2) ->
        SetBytes (skipn 32 sig1) = SetBytes (skipn 32 sig2) ->
        sig1 = sig2).
Proof.
  intros sig1 sig2 H1 H2.
  assert (Hf1 : length (firstn 32 sig1) = 32)
    by (rewrite length_firstn; lia).
  assert (Hs1 : length (skipn 32 sig1) = 32)
    by (rewrite length_skipn; lia).
  assert (Hf2 : length (firstn 32 sig2) = 32)
    by (rewrite length_firstn; lia).
  assert (Hs2 : length (skipn 32 sig2) = 32)
    by (rewrite length_skipn; lia).
  split.
  - rewrite !SetBytes_big_endian.
    pose proof (big_endian_bound (firstn 32 sig1)) as Ba.
    pose proof (big_endian_bound (skipn 32 sig1)) as Bb.
    rewrite Hf1 in Ba. rewrite Hs1 in Bb.
    change (256 ^ Z.of_nat 32)%Z with (2 ^ 256)%Z in *. split; assumption.
  - rewrite !SetBytes_big_endian. intros Ef Es.
    apply big_endian_injective in Ef; [| congruence].
    apply big_endian_injective in Es; [| congruence].
    rewrite <- (firstn_skipn 32 sig1), <- (firstn_skipn 32 sig2).
    now rewrite Ef, Es.
Qed.

Lemma X16_signature_numbers_witness :
  length sample_signature = 64 /\ length sample_key = 64
  /\ (0 <= SetBytes (firstn 32 sample_signature) < 2 ^ 256)%Z
  /\ (SetBytes (firstn 32 sample_signature) = SetBytes (firstn 32 sample_key) ->
      SetBytes (skipn 32 sample_signature) = SetBytes (skipn 32 sample_key) ->
      sample_signature = sample_key).
Proof.
  assert (Hs : length sample_signature = 64) by reflexivity.
  assert (Hk : length sample_key = 64) by reflexivity.
  split; [exact Hs |]. split; [exact Hk |].
  destruct (X16_signature_numbers sample_signature sample_key Hs Hk)
    as ((Hb & _) & Hinj).
  split; [exact Hb | exact Hinj].
Defined.

(** ** The layout, as a partition *)

Lemma offset_in_tail (g f : Field) (k : nat) (t : list (Field * nat)) :
  g <> f -> offset_in ((g, k) :: t) f = k + offset_in t f.
Proof.
  intros Hne. simpl. destruct (Field_eqb g f) eqn:E; [| reflexivity].
  apply Field_eqb_eq in E. contradiction.
Qed.

(** Fields laid out one after the other cover every byte of the struct. *)
Lemma layout_covers (fs : list (Field * nat)) :
  NoDup (map fst fs) ->
  forall i, i < list_sum (map snd fs) ->
  exists f n, In (f, n) fs /\ offset_in fs f <= i < offset_in fs f + n.
Proof.
  induction fs as [| [g k] t IH]; intros Hnd i Hi; [simpl in Hi; lia |].
  simpl in Hnd. apply NoDup_cons_iff in Hnd. destruct Hnd as [Hnotin Hnd].
  simpl in Hi.
  destruct (Nat.lt_ge_cases i k) as [Hlt | Hge].
  - exists g, k. split; [now left |].
    simpl. rewrite Field_eqb_refl. lia.
  - destruct (IH Hnd (i - k) ltac:(lia)) as (f & n & Hin & Ho).
    exists f, n. split; [now right |].
    rewrite offset_in_tail; [lia |].
    intros ->. apply Hnotin. change f with (fst (f, n)). now apply in_map.
Qed.

(** X17: the fields of TDReport lie back to back: no two of them
    overlap, every one of the struct's 1048 bytes belongs to a field, and
    no field is empty or reaches past the struct. *)
Theorem X17_layout_partition :
  (forall f g : Field,
      f <> g ->
      field_offset f + field_size f <= field_offset g
      \/ field_offset g + field_size g <= field_offset f)
  /\ (forall i, i < sizeof_TDReport ->
      exists f, field_offset f <= i < field_offset f + field_size f)
  /\ (forall f, 0 < field_size f
                /\ field_offset f + field_size f <= sizeof_TDReport).
Proof.
  split; [| split].
  - intros f g Hne.
    assert (H : (field_offset f + field_size f <=? field_offset g)
                || (field_offset g + field_size g <=? field_offset f) = true)
      by (destruct f, g; try (exfalso; apply Hne; reflexivity);
          vm_compute; reflexivity).
    apply orb_true_iff in H. destruct H as [H | H]; apply Nat.leb_le in H;
      tauto.
  - intros i Hi.
    destruct (layout_covers TDReport TDReport_NoDup i Hi) as (f & n & Hin & Ho).
    exists f. rewrite <- (declared_size f n Hin). exact Ho.
  - intros f. split; [| apply field_in_struct].
    apply Nat.ltb_lt. destruct f; vm_compute; reflexivity.
Qed.
